(** * FED press-conference scraper: model of [main.py] and [config.py]

    The scraper downloads dated PDF transcripts, extracts their text page
    by page, saves the text and later cleans the saved files with a chain
    of regular-expression substitutions.

    Python strings are modelled as lists of Unicode code points, the
    regular expressions as the concatenations of quantified character
    classes that the source compiles, matched by a greedy backtracking
    matcher, and the effectful code (HTTP, sleeping, the output directory)
    by explicit state passing over a world that records the directory and
    the history of external calls.

    Left out: the log, which no function reads back; and the exceptions
    that the source does not name ([time.sleep] and [Path.exists] return,
    [session.get] raises nothing but [RequestException]). *)

From Stdlib Require Import ZArith NArith List String Ascii Bool Lia QArith.
From stdpp Require Import gmap list.

Local Open Scope N_scope.

(** ** Text *)

(** A Python [str]: a sequence of code points. *)
Abbreviation text := (list N).

(** An ASCII literal as a [str]. *)
Definition cp (s : string) : text :=
  List.map N_of_ascii (list_ascii_of_string s).

(** [str.isspace] on one character, which is also the class [\s] of a
    [str] pattern. *)
Definition is_space (c : N) : bool :=
  ((9 <=? c) && (c <=? 13)) || ((28 <=? c) && (c <=? 32))
  || (c =? 133) || (c =? 160) || (c =? 5760)
  || ((8192 <=? c) && (c <=? 8202))
  || (c =? 8232) || (c =? 8233) || (c =? 8239) || (c =? 8287)
  || (c =? 12288).

Definition ascii_digit (c : N) : bool := (48 <=? c) && (c <=? 57).

(** The class [[A-Za-z]]. *)
Definition ascii_letter (c : N) : bool :=
  ((65 <=? c) && (c <=? 90)) || ((97 <=? c) && (c <=? 122)).

(** The Unicode tables behind [\d] and [\w] outside ASCII depend on the
    Unicode version of the interpreter; they are a parameter of the model. *)
Record unicode_tables : Type := {
  decimal_beyond_ascii : N -> bool;
  word_beyond_ascii : N -> bool
}.

(** The tables with nothing outside ASCII. *)
Definition ascii_only : unicode_tables :=
  {| decimal_beyond_ascii := fun _ => false;
     word_beyond_ascii := fun _ => false |}.

(** The class [\d]. *)
Definition is_digit (U : unicode_tables) (c : N) : bool :=
  if c <? 128 then ascii_digit c else decimal_beyond_ascii U c.

(** The class [\w]. *)
Definition is_word (U : unicode_tables) (c : N) : bool :=
  if c <? 128 then ascii_letter c || ascii_digit c || (c =? 95)
  else word_beyond_ascii U c.

Fixpoint lstrip (s : text) : text :=
  match s with
  | [] => []
  | c :: s' => if is_space c then lstrip s' else s
  end.

Definition rstrip (s : text) : text := rev (lstrip (rev s)).

(** [str.strip()] *)
Definition strip (s : text) : text := rstrip (lstrip s).

(** [sep.join(parts)] *)
Fixpoint join (sep : text) (parts : list text) : text :=
  match parts with
  | [] => []
  | [p] => p
  | p :: ps => p ++ sep ++ join sep ps
  end.

Fixpoint is_prefix (p s : text) : bool :=
  match p, s with
  | [], _ => true
  | _ :: _, [] => false
  | a :: p', b :: s' => (a =? b) && is_prefix p' s'
  end.

(** [needle in s] *)
Fixpoint is_infix (needle s : text) : bool :=
  is_prefix needle s ||
  match s with
  | [] => false
  | _ :: s' => is_infix needle s'
  end.

(** ** Regular expressions

    Every pattern of the source is a concatenation of character classes
    under a greedy quantifier: [x], [x+], [x*] or [x{m,n}]. *)

Record item : Type := {
  accepts : N -> bool;
  lo : nat;
  hi : option nat
}.

Abbreviation pattern := (list item).

Definition plus (cls : N -> bool) : item :=
  {| accepts := cls; lo := 1; hi := None |}.
Definition star (cls : N -> bool) : item :=
  {| accepts := cls; lo := 0; hi := None |}.
Definition between (cls : N -> bool) (m n : nat) : item :=
  {| accepts := cls; lo := m; hi := Some n |}.
Definition one (c : N) : item := between (N.eqb c) 1 1.
Definition lit (s : string) : pattern := List.map one (cp s).

(** How many leading characters of [s] the class takes: at most [n] of
    them under [x{m,n}], all of them under [x+] and [x*]. *)
Fixpoint run_upto (cls : N -> bool) (n : nat) (s : text) : nat :=
  match n with
  | O => O
  | S n' =>
      match s with
      | [] => O
      | c :: s' => if cls c then S (run_upto cls n' s') else O
      end
  end.

Fixpoint run_all (cls : N -> bool) (s : text) : nat :=
  match s with
  | [] => O
  | c :: s' => if cls c then S (run_all cls s') else O
  end.

Definition run_length (cls : N -> bool) (cap : option nat) (s : text) : nat :=
  match cap with
  | Some n => run_upto cls n s
  | None => run_all cls s
  end.

Section Backtrack.
Variable rest : text -> option nat.
Variable least : nat.
Variable s : text.

(** A greedy quantifier gives back one character at a time until the
    rest of the pattern matches. *)
Fixpoint backtrack (k : nat) : option nat :=
  if (k <? least)%nat then None
  else
    match rest (drop k s) with
    | Some m => Some (k + m)%nat
    | None =>
        match k with
        | O => None
        | S k' => backtrack k'
        end
    end.
End Backtrack.

(** [pattern.match] at the start of [s]: the length of the match. *)
Fixpoint match_items (p : pattern) (s : text) : option nat :=
  match p with
  | [] => Some O
  | it :: p' =>
      backtrack (match_items p') (lo it) s
                (run_length (accepts it) (hi it) s)
  end.

(** [pattern.sub(repl, s)]: the leftmost matches, not overlapping, are
    replaced from left to right. [skip] counts the characters of [s] that
    still belong to the match found last. *)
Fixpoint sub_from (p : pattern) (repl : text) (skip : nat) (s : text) : text :=
  match s with
  | [] =>
      match skip, match_items p [] with
      | O, Some _ => repl
      | _, _ => []
      end
  | c :: s' =>
      match skip with
      | S k => sub_from p repl k s'
      | O =>
          match match_items p s with
          | Some (S n) => repl ++ sub_from p repl n s'
          | Some O => repl ++ c :: sub_from p repl O s'
          | None => c :: sub_from p repl O s'
          end
      end
  end.

Definition sub (p : pattern) (repl : text) (s : text) : text :=
  sub_from p repl O s.

(** [pattern.search(s) is not None] *)
Fixpoint finds (p : pattern) (s : text) : bool :=
  match match_items p s with
  | Some _ => true
  | None =>
      match s with
      | [] => false
      | _ :: s' => finds p s'
      end
  end.

(** ** The compiled patterns ([_compile_regex_patterns]) *)

Section Patterns.
Variable U : unicode_tables.

Definition sp : item := plus is_space.
Definition sp0 : item := star is_space.

(** [['’\s]]: apostrophe, right single quotation mark, white space. *)
Definition quote_or_space (c : N) : bool :=
  (c =? 39) || (c =? 8217) || is_space c.

(** [Page \d+ of \d+] *)
Definition page_number_pattern : pattern :=
  lit "Page " ++ [plus (is_digit U)] ++ lit " of " ++ [plus (is_digit U)].

(** [[A-Za-z]+\s+\d{1,2}\s*,\s*\d{3}\s*\d] *)
Definition date_grammar : pattern :=
  [plus ascii_letter; sp; between (is_digit U) 1 2; sp0] ++ lit ","
  ++ [sp0; between (is_digit U) 3 3; sp0; between (is_digit U) 1 1].

(** [Chair\s+Powell\s*['’\s]*s\s+Press\s+Conference] *)
Definition chair_title : pattern :=
  lit "Chair" ++ [sp] ++ lit "Powell" ++ [sp0; star quote_or_space]
  ++ lit "s" ++ [sp] ++ lit "Press" ++ [sp] ++ lit "Conference".

Definition header_pattern : pattern :=
  date_grammar ++ [sp] ++ chair_title ++ [sp] ++ lit "FINAL".

Definition transcript_pattern : pattern :=
  lit "Transcript" ++ [sp] ++ lit "of" ++ [sp] ++ chair_title.

Definition transcript_with_date_pattern : pattern :=
  transcript_pattern ++ [sp] ++ date_grammar.

(** [\s+] *)
Definition whitespace_pattern : pattern := [sp].
End Patterns.

(** ** Configuration ([config.py]) *)

Record ScraperConfig : Type := {
  base_url : text;
  output_dir : text;
  request_timeout : Z;
  delay : Q;
  max_retries : Z;
  retry_delay : Q;
  log_level : text;
  log_file : text;
  user_agent : text
}.

Definition DEFAULT_CONFIG : ScraperConfig :=
  {| base_url := cp "https://www.federalreserve.gov/mediacenter/files/";
     output_dir := cp "fed_press_conferences";
     request_timeout := 30;
     delay := 1;
     max_retries := 3;
     retry_delay := 2;
     log_level := cp "INFO";
     log_file := cp "scraper.log";
     user_agent :=
       cp "FED-Press-Conference-Scraper/1.0 (+https://github.com/<yourusername>/fed-scraper)" |}.

(** ** The world outside the process *)

Abbreviation bytes := (list Byte.byte).

(** The calls that leave the process, in the order they are made. *)
Inductive event : Type :=
  | EExists (path : text)
  | EGet (url : text) (timeout : Z)
  | ESleep (seconds : Q)
  | EOpenRead (path : text)
  | EOpenWrite (path : text).

(** What [session.get] does: a response with its status code and body, or
    a [requests.exceptions.RequestException]. *)
Inductive http_outcome : Type :=
  | Response (status_code : Z) (content : bytes)
  | RequestException.

(** What [page.extract_text()] does: it returns a string or [None], or it
    raises. *)
Inductive page : Type :=
  | PageText (page_text : option text)
  | PageRaises.

(** What [open(path, "w")] followed by [f.write(content)] does: both
    succeed, or [open] raises, or the file is opened (created or
    truncated) and the write raises after [written] characters reached
    the file. *)
Inductive write_outcome : Type :=
  | WriteOk
  | OpenFails
  | WriteFails (written : nat).

(** The environment answers each call from the history so far:
    [session.get(url)]; the pages of a document, [None] when
    [pdfplumber.open] raises; the fate of a write; whether a read raises;
    and the lines of the two input files, [None] when the file is missing
    or cannot be read. *)
Record environment : Type := {
  http : list event -> text -> http_outcome;
  pdf_pages : bytes -> option (list page);
  disk_write : list event -> text -> text -> write_outcome;
  disk_read_fails : list event -> text -> bool;
  dates_file : option (list text);
  names_file : option (list text)
}.

(** The files by path, and the history of calls. *)
Record world : Type := {
  files : gmap text text;
  history : list event
}.

Definition emit (e : event) (w : world) : world :=
  {| files := files w; history := history w ++ [e] |}.

Definition put_file (path content : text) (w : world) : world :=
  {| files := <[path := content]> (files w); history := history w |}.

(** A call returns, or raises [ScraperError]. *)
Inductive outcome (A : Type) : Type :=
  | Return (a : A)
  | ScraperError.
Arguments Return {A} a.
Arguments ScraperError {A}.

(** ** The scraper ([FEDPressConferenceScraper]) *)

Record scraper : Type := {
  config : ScraperConfig;
  names : list text
}.

(** [[line.strip() for line in f if line.strip()]] *)
Definition stripped_lines (lines : list text) : list text :=
  List.filter (fun l => negb (Nat.eqb (length l) 0)) (List.map strip lines).

Definition _load_names_from_file (E : environment) : list text :=
  match names_file E with
  | None => []
  | Some lines => stripped_lines lines
  end.

Definition load_dates_from_file (E : environment) : outcome (list text) :=
  match dates_file E with
  | None => ScraperError
  | Some lines => Return (stripped_lines lines)
  end.

Definition new_scraper (c : ScraperConfig) (E : environment) : scraper :=
  {| config := c; names := _load_names_from_file E |}.

Definition pdf_url (self : scraper) (date_str : text) : text :=
  base_url (config self) ++ cp "FOMCpresconf" ++ date_str ++ cp ".pdf".

(** [self.output_dir / f"FOMCpresconf{date_str}.txt"], for a date
    without a path separator *)
Definition txt_path (self : scraper) (date_str : text) : text :=
  output_dir (config self) ++ cp "/" ++ cp "FOMCpresconf" ++ date_str ++ cp ".txt".

Section Fetcher.
Variable self : scraper.
Variable E : environment.
Variable url : text.

(** The iterations of the loop of [download_pdf] that are still to run,
    [attempt] being the loop variable. *)
Fixpoint download_attempts (remaining : nat) (attempt : Z) (w : world)
  : world * option bytes :=
  match remaining with
  | O => (w, None)
  | S r =>
      let w1 := emit (EGet url (request_timeout (config self))) w in
      match http E (history w) url with
      | Response status body =>
          if (status =? 200)%Z then (w1, Some body)
          else if (status =? 404)%Z then (w1, None)
          else download_attempts r (attempt + 1)%Z w1
      | RequestException =>
          if (attempt <? max_retries (config self) - 1)%Z
          then download_attempts r (attempt + 1)%Z
                 (emit (ESleep (retry_delay (config self))) w1)
          else (w1, None)
      end
  end.
End Fetcher.

(** [download_pdf]: the content of the document, or [None]. *)
Definition download_pdf (self : scraper) (E : environment) (date_str : text)
    (w : world) : world * option bytes :=
  download_attempts self E (pdf_url self date_str)
    (Z.to_nat (max_retries (config self))) 0%Z w.

(** The loop of [extract_text_from_pdf]: the texts of the pages that gave
    some. *)
Fixpoint text_parts (pages : list page) : list text :=
  match pages with
  | [] => []
  | PageText (Some (c :: t)) :: ps => (c :: t) :: text_parts ps
  | PageText (Some []) :: ps => text_parts ps
  | PageText None :: ps => text_parts ps
  | PageRaises :: ps => text_parts ps
  end.

(** [extract_text_from_pdf]: whatever goes wrong is raised again as
    [ScraperError]. *)
Definition extract_text_from_pdf (E : environment) (pdf_content : bytes)
    : outcome text :=
  match pdf_pages E pdf_content with
  | None => ScraperError
  | Some pages =>
      match text_parts pages with
      | [] => ScraperError
      | parts => Return (strip (join [10] parts))
      end
  end.

(** [with open(path, "w") as f: f.write(content)]; the boolean tells
    whether it ended without raising. *)
Definition write_file (E : environment) (path content : text) (w : world)
    : world * bool :=
  let w1 := emit (EOpenWrite path) w in
  match disk_write E (history w) path content with
  | OpenFails => (w1, false)
  | WriteFails n => (put_file path (take n content) w1, false)
  | WriteOk => (put_file path content w1, true)
  end.

(** [with open(path, "r") as f: f.read()]; [None] when it raises. *)
Definition read_file (E : environment) (path : text) (w : world)
    : world * option text :=
  let w1 := emit (EOpenRead path) w in
  match files w !! path with
  | None => (w1, None)
  | Some content =>
      if disk_read_fails E (history w) path then (w1, None)
      else (w1, Some content)
  end.

Definition save_text_file (self : scraper) (E : environment)
    (date_str text_content : text) (w : world) : world * bool :=
  match strip text_content with
  | [] => (w, false)
  | _ :: _ => write_file E (txt_path self date_str) text_content w
  end.

(** ** The cleaner *)

(** [\b] between two neighbouring characters; there is none before the
    start and after the end of the string. *)
Definition word_at (U : unicode_tables) (c : option N) : bool :=
  match c with
  | Some c => is_word U c
  | None => false
  end.

Definition boundary (U : unicode_tables) (before after : option N) : bool :=
  xorb (word_at U before) (word_at U after).

Definition name_tag (name : text) : text :=
  cp "<NAME>" ++ name ++ cp "</NAME>".

Section Tagging.
Variable U : unicode_tables.
Variable name : text.

(** [\bNAME\b] at the start of [s], the character before being [before]. *)
Definition name_here (before : option N) (s : text) : bool :=
  is_prefix name s
  && boundary U before (head name)
  && boundary U (last name) (head (drop (length name) s)).

(** [re.sub(r"\b" + re.escape(name) + r"\b", f"<NAME>{name}</NAME>", s)]
    for a name that is not empty and has no backslash, so that the
    replacement is taken as it is written. *)
Fixpoint tag_from (before : option N) (skip : nat) (s : text) : text :=
  match s with
  | [] => []
  | c :: s' =>
      match skip with
      | S k => tag_from (Some c) k s'
      | O =>
          if name_here before s
          then name_tag name ++ tag_from (Some c) (Nat.pred (length name)) s'
          else c :: tag_from (Some c) O s'
      end
  end.

Definition tag_name (s : text) : text :=
  if is_infix name s then tag_from None O s else s.
End Tagging.

Section Cleaner.
Variable U : unicode_tables.
Variable self : scraper.

Definition _tag_names_in_text (text_content : text) : text :=
  fold_left (fun tagged name => tag_name U name tagged) (names self)
            text_content.

Definition remove_page_numbers : text -> text :=
  sub (page_number_pattern U) [].
Definition remove_headers : text -> text :=
  sub (header_pattern U) [].
Definition remove_titles_with_date : text -> text :=
  sub (transcript_with_date_pattern U) [].
Definition remove_titles : text -> text :=
  sub (transcript_pattern) [].
Definition collapse_whitespace : text -> text :=
  sub whitespace_pattern [32].

(** The five substitutions of [clean_extracted_text], in its order. *)
Definition structural_steps (text_content : text) : text :=
  collapse_whitespace
    (remove_titles
       (remove_titles_with_date
          (remove_headers (remove_page_numbers text_content)))).

Definition clean_extracted_text (text_content : text) : text :=
  match text_content with
  | [] => []
  | _ :: _ => strip (_tag_names_in_text (structural_steps text_content))
  end.
End Cleaner.

(** ** The pipeline *)

Section Pipeline.
Variable U : unicode_tables.
Variable self : scraper.
Variable E : environment.

(** [process_date]: [ScraperError] is caught and answered with [False]. *)
Definition process_date (date_str : text) (w : world) : world * bool :=
  let w0 := emit (EExists (txt_path self date_str)) w in
  match files w !! txt_path self date_str with
  | Some _ => (w0, true)
  | None =>
      match download_pdf self E date_str w0 with
      | (w1, None) => (w1, false)
      | (w1, Some pdf_content) =>
          match extract_text_from_pdf E pdf_content with
          | ScraperError => (w1, false)
          | Return [] => (w1, false)
          | Return text_content =>
              save_text_file self E date_str text_content w1
          end
      end
  end.

(** The loop of [scrape_predefined_dates]. *)
Fixpoint scrape_loop (dates : list text) (success_count : Z) (w : world)
  : world * Z :=
  match dates with
  | [] => (w, success_count)
  | date_str :: rest =>
      let (w1, ok) := process_date date_str w in
      scrape_loop rest
        (if ok then (success_count + 1)%Z else success_count)
        (emit (ESleep (delay (config self))) w1)
  end.

Definition scrape_predefined_dates (w : world) : world * outcome (Z * Z) :=
  match load_dates_from_file E with
  | ScraperError => (w, ScraperError)
  | Return [] => (w, Return (0%Z, 0%Z))
  | Return dates =>
      let (w1, success_count) := scrape_loop dates 0%Z w in
      (w1, Return (success_count, Z.of_nat (length dates)))
  end.

(** [FOMCpresconf*.txt] directly inside the output directory. *)
Definition is_text_file (path : text) : bool :=
  let stem := output_dir (config self) ++ cp "/" ++ cp "FOMCpresconf" in
  is_prefix stem path
  && is_prefix (rev (cp ".txt")) (rev (drop (length stem) path))
  && negb (is_infix (cp "/") (drop (length stem) path)).

(** [self.output_dir.glob("FOMCpresconf*.txt")] *)
Definition glob_text_files (w : world) : list text :=
  List.filter is_text_file (List.map fst (map_to_list (files w))).

(** The body of the loop of [clean_all_text_files] for one file. *)
Definition clean_text_file (text_file : text) (w : world) : world * bool :=
  match read_file E text_file w with
  | (w1, None) => (w1, false)
  | (w1, Some raw_content) =>
      write_file E text_file (clean_extracted_text U self raw_content) w1
  end.

Fixpoint clean_loop (text_files : list text) (cleaned_count : Z) (w : world)
  : world * Z :=
  match text_files with
  | [] => (w, cleaned_count)
  | text_file :: rest =>
      let (w1, ok) := clean_text_file text_file w in
      clean_loop rest (if ok then (cleaned_count + 1)%Z else cleaned_count) w1
  end.

Definition clean_all_text_files (w : world) : world * Z :=
  clean_loop (glob_text_files w) 0%Z w.
End Pipeline.


(** ** What a history shows *)

(** The URLs requested, in order. *)
Fixpoint requests (h : list event) : list text :=
  match h with
  | [] => []
  | EGet url _ :: h' => url :: requests h'
  | _ :: h' => requests h'
  end.

(** The sleeps, in order. *)
Fixpoint sleeps (h : list event) : list Q :=
  match h with
  | [] => []
  | ESleep d :: h' => d :: sleeps h'
  | _ :: h' => sleeps h'
  end.

(** The paths whose existence was asked for, in order. *)
Fixpoint probes (h : list event) : list text :=
  match h with
  | [] => []
  | EExists path :: h' => path :: probes h'
  | _ :: h' => probes h'
  end.

(** A failure of one attempt after which [download_pdf] goes on: a status
    other than 200 and 404, or a transport error. *)
Definition retryable (o : http_outcome) : Prop :=
  match o with
  | Response status _ => status <> 200%Z /\ status <> 404%Z
  | RequestException => True
  end.

(** The answers of a server, one per request in turn, for environments
    that are written down. *)
Definition scripted (answers : list http_outcome) (h : list event)
    (url : text) : http_outcome :=
  nth (length (requests h)) answers RequestException.

Definition quiet_environment : environment :=
  {| http := fun _ _ => RequestException;
     pdf_pages := fun _ => None;
     disk_write := fun _ _ _ => WriteOk;
     disk_read_fails := fun _ _ => false;
     dates_file := None;
     names_file := None |}.

Definition empty_world : world := {| files := ∅; history := [] |}.

(** ** Vocabulary of the statements *)

Definition gives_text (p : page) : bool :=
  match p with
  | PageText (Some (_ :: _)) => true
  | _ => false
  end.

(** The returns of [process_date] in a run of the loop, in order. *)
Fixpoint batch_outcomes (self : scraper) (E : environment) (dates : list text)
    (w : world) : list bool :=
  match dates with
  | [] => []
  | date_str :: rest =>
      let (w1, ok) := process_date self E date_str w in
      ok :: batch_outcomes self E rest (emit (ESleep (delay (config self))) w1)
  end.

Definition successes (outcomes : list bool) : nat :=
  length (List.filter (fun ok => ok) outcomes).

(** The calls made for one date in the loop: the look for its file first,
    no look for another file after it, and the sleep of [delay] last. *)
Definition date_segment (self : scraper) (date_str : text)
    (segment : list event) : Prop :=
  exists mid,
    segment = EExists (txt_path self date_str) :: mid
              ++ [ESleep (delay (config self))]
    /\ probes mid = [].

(** White space collapsed in one pass, [in_run] telling that the
    character before was white space. *)
Fixpoint squeeze (in_run : bool) (s : text) : text :=
  match s with
  | [] => []
  | c :: s' =>
      if is_space c
      then if in_run then squeeze true s' else 32 :: squeeze true s'
      else c :: squeeze false s'
  end.

(** Does [pre] end in a character of the class? *)
Definition ends_in (cls : N -> bool) (pre : text) : bool :=
  match last pre with
  | Some c => cls c
  | None => false
  end.

Definition ends_with_letter (s : text) : bool := ends_in ascii_letter s.

(** The footer as the pattern takes it, the last digit of the year set
    apart. *)
Definition dated_footer : text :=
  cp "January 31, 202 4 Chair Powell's Press Conference FINAL".

(** The footer with the year in one piece and a page number after it. *)
Definition footer_with_page : text :=
  cp "January 31, 2024 2 Chair Powell's Press Conference FINAL".

(** ** Scenarios *)

Definition default_scraper : scraper :=
  {| config := DEFAULT_CONFIG; names := [] |}.

Definition environment_of (answers : list http_outcome) (pages : list page)
    (wr : list event -> text -> text -> write_outcome) : environment :=
  {| http := scripted answers;
     pdf_pages := fun _ => Some pages;
     disk_write := wr;
     disk_read_fails := fun _ _ => false;
     dates_file := None;
     names_file := None |}.

Definition always_unavailable : environment :=
  {| http := fun _ _ => Response 503 [];
     pdf_pages := fun _ => None;
     disk_write := fun _ _ _ => WriteOk;
     disk_read_fails := fun _ _ => false;
     dates_file := None;
     names_file := None |}.

Definition always_missing : environment :=
  {| http := fun _ _ => Response 404 [];
     pdf_pages := fun _ => None;
     disk_write := fun _ _ _ => WriteOk;
     disk_read_fails := fun _ _ => false;
     dates_file := None;
     names_file := None |}.

Definition three_pages : list page :=
  [PageText (Some (cp "first")); PageRaises; PageText (Some (cp "third "));
   PageText None].

Definition one_raw_page : list page :=
  [PageText (Some (cp "Page 1 of 2  Hello "))].

Definition serves_raw_page : environment :=
  environment_of [Response 200 []] one_raw_page (fun _ _ _ => WriteOk).

Definition write_interrupted : environment :=
  environment_of [] [] (fun _ _ _ => WriteFails 3).

Definition saved_before : world :=
  {| files := {[ txt_path default_scraper (cp "20240131")
                 := cp "Page 1 of 2 Hello world" ]};
     history := [] |}.

Definition five_dates : list text :=
  [cp "20240131"; cp "20240320"; cp "20240501"; cp "20240612"; cp "20240731"].

(** Five dates: the second is already saved, the first and the third are
    served, the fourth is missing on the server, and the requests for the
    fifth all fail. *)
Definition five_dates_environment : environment :=
  {| http := scripted [Response 200 []; Response 200 []; Response 404 [];
                       RequestException; RequestException; RequestException];
     pdf_pages := fun _ => Some [PageText (Some (cp "Good afternoon."))];
     disk_write := fun _ _ _ => WriteOk;
     disk_read_fails := fun _ _ => false;
     dates_file := Some (List.map (fun d => d ++ [10]) five_dates ++ [[10]]);
     names_file := None |}.

Definition second_date_saved : world :=
  {| files := {[ txt_path default_scraper (cp "20240320") := cp "Saved." ]};
     history := [] |}.

Definition first_page : text :=
  cp "Page 1 of 26 Transcript of Chair Powell's Press Conference January 31, 202 4  CHAIR POWELL.  Good afternoon.".

(** ** Further vocabulary *)

(** The calls of [download_pdf] when every request raises: the requests
    with a sleep of [retry_delay] between them. *)
Fixpoint transport_retries (self : scraper) (url : text) (n : nat)
    : list event :=
  match n with
  | O => []
  | S O => [EGet url (request_timeout (config self))]
  | S n' =>
      EGet url (request_timeout (config self))
      :: ESleep (retry_delay (config self))
      :: transport_retries self url n'
  end.

(** An event of [download_pdf] for [url]. *)
Definition fetch_event (self : scraper) (url : text) (e : event) : Prop :=
  e = EGet url (request_timeout (config self))
  \/ e = ESleep (retry_delay (config self)).

(** The document is served and the write stops after four characters. *)
Definition serves_then_write_fails : environment :=
  environment_of [Response 200 []] one_raw_page (fun _ _ _ => WriteFails 4).



(** A saved transcript and a file of another kind beside it. *)
Definition two_saved_files : world :=
  {| files := {[ txt_path default_scraper (cp "20240131")
                 := cp "Page 1 of 2 Hello world";
                 cp "fed_press_conferences/notes.md" := cp "keep  me" ]};
     history := [] |}.

(** White space is single spaces only, [after_space] telling that the
    character before was one. *)
Fixpoint single_spaced (after_space : bool) (s : text) : bool :=
  match s with
  | [] => true
  | c :: s' =>
      if is_space c
      then (c =? 32) && negb after_space && single_spaced true s'
      else single_spaced false s'
  end.

(** The characters that are not white space, in order. *)
Definition ink (s : text) : text :=
  List.filter (fun c => negb (is_space c)) s.

(** The four removals of [clean_extracted_text], in its order. *)
Definition removal_steps (U : unicode_tables) (text_content : text) : text :=
  remove_titles
    (remove_titles_with_date U
       (remove_headers U (remove_page_numbers U text_content))).


(** * Properties *)

(** ** Histories *)

Lemma requests_app (h1 h2 : list event) :
  requests (h1 ++ h2) = requests h1 ++ requests h2.
Proof.
  induction h1 as [|e h1 IH]; simpl; [reflexivity|].
  destruct e; simpl; rewrite ?IH; reflexivity.
Qed.

Lemma sleeps_app (h1 h2 : list event) :
  sleeps (h1 ++ h2) = sleeps h1 ++ sleeps h2.
Proof.
  induction h1 as [|e h1 IH]; simpl; [reflexivity|].
  destruct e; simpl; rewrite ?IH; reflexivity.
Qed.

Lemma probes_app (h1 h2 : list event) :
  probes (h1 ++ h2) = probes h1 ++ probes h2.
Proof.
  induction h1 as [|e h1 IH]; simpl; [reflexivity|].
  destruct e; simpl; rewrite ?IH; reflexivity.
Qed.

(** ** White space *)

Lemma lstrip_blank (s : text) :
  forallb is_space s = true -> lstrip s = [].
Proof.
  induction s as [|c s IH]; simpl; [reflexivity|].
  intros H. apply andb_true_iff in H as [Hc Hs].
  rewrite Hc. auto.
Qed.

Lemma strip_blank (s : text) :
  forallb is_space s = true -> strip s = [].
Proof.
  intros H. unfold strip. rewrite (lstrip_blank s H). reflexivity.
Qed.

(** ** Saving *)

(** C10: [save_text_file] with a content that is empty or all white space
    returns [False] and leaves the world as it was: no file is opened,
    created or changed. *)
Theorem save_text_file_blank (self : scraper) (E : environment)
    (date_str text_content : text) (w : world) :
  forallb is_space text_content = true ->
  save_text_file self E date_str text_content w = (w, false).
Proof.
  intros H. unfold save_text_file. rewrite (strip_blank _ H). reflexivity.
Qed.

Lemma save_text_file_blank_witness :
  forallb is_space [32; 10; 9] = true /\
  save_text_file (new_scraper DEFAULT_CONFIG quiet_environment)
    quiet_environment (cp "20240131") [32; 10; 9] empty_world
  = (empty_world, false).
Proof.
  split; [reflexivity|].
  apply (save_text_file_blank _ _ _ [32; 10; 9]). reflexivity.
Defined.

(** ** Fetching *)

Section FetcherFacts.
Variable self : scraper.
Variable E : environment.
Variable url : text.

(** Every failure retried: the loop runs to its end, one request per
    iteration, and gives [None]. *)
Lemma download_attempts_exhausted (remaining : nat) :
  (forall h, retryable (http E h url)) ->
  forall (attempt : Z) (w : world),
    (attempt + Z.of_nat remaining = max_retries (config self))%Z ->
    snd (download_attempts self E url remaining attempt w) = None /\
    files (fst (download_attempts self E url remaining attempt w))
    = files w /\
    requests (history (fst (download_attempts self E url remaining attempt w)))
    = requests (history w) ++ repeat url remaining.
Proof.
  intros Hretry.
  induction remaining as [|n IH]; intros attempt w Hsum.
  - simpl. rewrite app_nil_r. auto.
  - cbn [download_attempts].
    pose proof (Hretry (history w)) as Hr.
    destruct (http E (history w) url) as [status body|]; simpl in Hr.
    + destruct Hr as [H200 H404].
      apply Z.eqb_neq in H200, H404. rewrite H200, H404.
      destruct (IH (attempt + 1)%Z
                  (emit (EGet url (request_timeout (config self))) w))
        as (Hres & Hfiles & Hreq); [lia|].
      rewrite Hres, Hfiles, Hreq.
      repeat split.
      simpl. rewrite requests_app. simpl.
      rewrite <- app_assoc. reflexivity.
    + destruct (Z.ltb_spec attempt (max_retries (config self) - 1)).
      * destruct (IH (attempt + 1)%Z
                    (emit (ESleep (retry_delay (config self)))
                       (emit (EGet url (request_timeout (config self))) w)))
          as (Hres & Hfiles & Hreq); [lia|].
        rewrite Hres, Hfiles, Hreq.
        repeat split.
        simpl. rewrite !requests_app. simpl.
        rewrite app_nil_r, <- app_assoc. reflexivity.
      * assert (n = O) as -> by lia.
        simpl. repeat split.
        rewrite requests_app. reflexivity.
Qed.

(** A first answer 404 ends [download_pdf] at once. *)
Lemma download_attempts_not_found (remaining : nat) (attempt : Z)
    (w : world) (body : bytes) :
  http E (history w) url = Response 404 body ->
  download_attempts self E url (S remaining) attempt w
  = (emit (EGet url (request_timeout (config self))) w, None).
Proof. intros H. simpl. rewrite H. reflexivity. Qed.

(** Statuses other than 200 and 404 only: the requests follow each
    other with nothing in between. *)
Lemma download_attempts_status_only (remaining : nat) :
  (forall h, exists status body,
      http E h url = Response status body /\
      status <> 200%Z /\ status <> 404%Z) ->
  forall (attempt : Z) (w : world),
    download_attempts self E url remaining attempt w
    = ({| files := files w;
          history := history w
                     ++ repeat (EGet url (request_timeout (config self)))
                          remaining |}, None).
Proof.
  intros Hstatus.
  induction remaining as [|n IH]; intros attempt w.
  - simpl. rewrite app_nil_r. destruct w; reflexivity.
  - cbn [download_attempts].
    destruct (Hstatus (history w)) as (status & body & -> & H200 & H404).
    apply Z.eqb_neq in H200, H404. rewrite H200, H404.
    rewrite IH. simpl. rewrite <- app_assoc. reflexivity.
Qed.
End FetcherFacts.

(** C3: when every attempt fails with a transport error or a status other
    than 200 and 404, [download_pdf] sends one GET per iteration of
    [range(max_retries)], that is [max_retries] of them, and returns
    [None]; when the first answer is 404 it returns [None] after that one
    request. *)
Theorem download_pdf_retry_termination (self : scraper) (E : environment)
    (date_str : text) (w : world) :
  ((forall h, retryable (http E h (pdf_url self date_str))) ->
   snd (download_pdf self E date_str w) = None /\
   requests (history (fst (download_pdf self E date_str w)))
   = requests (history w)
     ++ repeat (pdf_url self date_str) (Z.to_nat (max_retries (config self))))
  /\
  (forall body,
     (1 <= max_retries (config self))%Z ->
     http E (history w) (pdf_url self date_str) = Response 404 body ->
     snd (download_pdf self E date_str w) = None /\
     history (fst (download_pdf self E date_str w))
     = history w
       ++ [EGet (pdf_url self date_str) (request_timeout (config self))]).
Proof.
  split.
  - intros Hretry. unfold download_pdf.
    destruct (Z.le_gt_cases 0 (max_retries (config self))) as [Hpos|Hneg].
    + destruct (download_attempts_exhausted self E (pdf_url self date_str)
                  (Z.to_nat (max_retries (config self))) Hretry 0%Z w)
        as (Hres & _ & Hreq); [lia|].
      auto.
    + replace (Z.to_nat (max_retries (config self))) with O by lia.
      simpl. rewrite app_nil_r. auto.
  - intros body Hpos H404. unfold download_pdf.
    destruct (Z.to_nat (max_retries (config self))) as [|n] eqn:Hn; [lia|].
    rewrite (download_attempts_not_found self E _ n 0%Z w body H404).
    auto.
Qed.

Lemma download_pdf_retry_termination_witness :
  (snd (download_pdf default_scraper quiet_environment (cp "20240131")
          empty_world) = None /\
   requests (history (fst (download_pdf default_scraper quiet_environment
                             (cp "20240131") empty_world)))
   = repeat (pdf_url default_scraper (cp "20240131")) 3)
  /\
  (snd (download_pdf default_scraper always_missing (cp "20240131")
          empty_world) = None /\
   history (fst (download_pdf default_scraper always_missing
                   (cp "20240131") empty_world))
   = [EGet (pdf_url default_scraper (cp "20240131")) 30]).
Proof.
  split.
  - apply (proj1 (download_pdf_retry_termination default_scraper
                    quiet_environment (cp "20240131") empty_world)).
    intros h. exact I.
  - apply (proj2 (download_pdf_retry_termination default_scraper
                    always_missing (cp "20240131") empty_world) []).
    + vm_compute. discriminate.
    + reflexivity.
Defined.

(** C8: when every answer is an HTTP status other than 200 and 404,
    [download_pdf] sends its requests one after the other and never
    sleeps: [time.sleep(retry_delay)] is only reached from the handler of
    [RequestException]. *)
Theorem download_pdf_status_retry_no_sleep (self : scraper) (E : environment)
    (date_str : text) (w : world) :
  (forall h, exists status body,
      http E h (pdf_url self date_str) = Response status body /\
      status <> 200%Z /\ status <> 404%Z) ->
  history (fst (download_pdf self E date_str w))
  = history w
    ++ repeat (EGet (pdf_url self date_str) (request_timeout (config self)))
         (Z.to_nat (max_retries (config self)))
  /\ sleeps (history (fst (download_pdf self E date_str w)))
     = sleeps (history w).
Proof.
  intros Hstatus. unfold download_pdf.
  rewrite (download_attempts_status_only self E _ _ Hstatus). simpl.
  split; [reflexivity|].
  rewrite sleeps_app.
  assert (forall e n, sleeps (repeat (EGet (pdf_url self date_str) e) n) = [])
    as Hnone by (intros e n; induction n; simpl; auto).
  rewrite Hnone, app_nil_r. reflexivity.
Qed.

Lemma download_pdf_status_retry_no_sleep_witness :
  history (fst (download_pdf default_scraper always_unavailable
                  (cp "20240131") empty_world))
  = repeat (EGet (pdf_url default_scraper (cp "20240131")) 30) 3
  /\ sleeps (history (fst (download_pdf default_scraper always_unavailable
                             (cp "20240131") empty_world)))
     = [].
Proof.
  apply (download_pdf_status_retry_no_sleep default_scraper
           always_unavailable (cp "20240131") empty_world).
  intros h. exists 503%Z, []. repeat split; discriminate.
Defined.

(** The sibling path: transport errors are retried after a sleep of
    [retry_delay]. *)
Example download_pdf_transport_retry_sleeps :
  history (fst (download_pdf default_scraper quiet_environment
                  (cp "20240131") empty_world))
  = [EGet (pdf_url default_scraper (cp "20240131")) 30; ESleep 2;
     EGet (pdf_url default_scraper (cp "20240131")) 30; ESleep 2;
     EGet (pdf_url default_scraper (cp "20240131")) 30].
Proof. reflexivity. Qed.

(** ** Processing one date *)

Lemma download_pdf_files (self : scraper) (E : environment)
    (date_str : text) (w : world) :
  files (fst (download_pdf self E date_str w)) = files w.
Proof.
  unfold download_pdf.
  generalize (Z.to_nat (max_retries (config self))) as n.
  generalize 0%Z as attempt. intros attempt n. revert attempt w.
  induction n as [|n IH]; intros attempt w; simpl; [reflexivity|].
  destruct (http E (history w) (pdf_url self date_str)) as [status body|].
  - destruct (status =? 200)%Z; [reflexivity|].
    destruct (status =? 404)%Z; [reflexivity|].
    rewrite IH. reflexivity.
  - destruct (attempt <? max_retries (config self) - 1)%Z; [|reflexivity].
    rewrite IH. reflexivity.
Qed.

(** C7, as the code has it: a date whose document the remote reports
    missing is answered with [False] after a single request and with the
    files untouched, and [False] is also what every other failed fetch
    gives; the result is a boolean. *)
Theorem process_date_fetch_failure (self : scraper) (E : environment)
    (date_str : text) (w : world) :
  files w !! txt_path self date_str = None ->
  (forall body,
     (1 <= max_retries (config self))%Z ->
     http E (history w ++ [EExists (txt_path self date_str)])
       (pdf_url self date_str) = Response 404 body ->
     process_date self E date_str w
     = ({| files := files w;
           history := history w
                      ++ [EExists (txt_path self date_str);
                          EGet (pdf_url self date_str)
                            (request_timeout (config self))] |}, false))
  /\
  (snd (download_pdf self E date_str
          (emit (EExists (txt_path self date_str)) w)) = None ->
   snd (process_date self E date_str w) = false /\
   files (fst (process_date self E date_str w)) = files w).
Proof.
  intros Habsent. split.
  - intros body Hpos H404. unfold process_date. rewrite Habsent.
    unfold download_pdf.
    destruct (Z.to_nat (max_retries (config self))) as [|n] eqn:Hn; [lia|].
    rewrite (download_attempts_not_found self E (pdf_url self date_str) n
               0%Z (emit (EExists (txt_path self date_str)) w) body H404).
    unfold emit. simpl. rewrite <- app_assoc. reflexivity.
  - intros Hnone. unfold process_date. rewrite Habsent.
    pose proof (download_pdf_files self E date_str
                  (emit (EExists (txt_path self date_str)) w)) as Hfiles.
    destruct (download_pdf self E date_str
                (emit (EExists (txt_path self date_str)) w)) as [w1 r].
    simpl in Hnone, Hfiles. subst r. simpl. auto.
Qed.

Lemma process_date_fetch_failure_witness :
  process_date default_scraper always_missing (cp "20240131") empty_world
  = ({| files := ∅;
        history := [EExists (txt_path default_scraper (cp "20240131"));
                    EGet (pdf_url default_scraper (cp "20240131")) 30] |},
     false)
  /\
  (snd (process_date default_scraper always_unavailable (cp "20240131")
          empty_world) = false /\
   files (fst (process_date default_scraper always_unavailable
                 (cp "20240131") empty_world)) = ∅).
Proof.
  split.
  - apply (proj1 (process_date_fetch_failure default_scraper always_missing
                    (cp "20240131") empty_world (lookup_empty _)) []).
    + vm_compute. discriminate.
    + reflexivity.
  - apply (proj2 (process_date_fetch_failure default_scraper
                    always_unavailable (cp "20240131") empty_world
                    (lookup_empty _))).
    reflexivity.
Defined.

(** The answer to a missing document is the answer to a server that keeps
    failing. *)
Lemma process_date_not_found_not_distinguished :
  snd (process_date default_scraper always_missing (cp "20240131")
         empty_world)
  = snd (process_date default_scraper always_unavailable (cp "20240131")
           empty_world).
Proof. reflexivity. Qed.

(** ** Extraction *)

Lemma text_parts_filter (pages : list page) :
  List.map (fun t => PageText (Some t)) (text_parts pages)
  = List.filter gives_text pages.
Proof.
  induction pages as [|p pages IH]; simpl; [reflexivity|].
  destruct p as [[[|c t]|]|]; simpl; rewrite ?IH; reflexivity.
Qed.

Lemma lstrip_suffix (s : text) : exists blank, s = blank ++ lstrip s.
Proof.
  induction s as [|c s [blank IH]]; simpl.
  - exists []. reflexivity.
  - destruct (is_space c).
    + exists (c :: blank). simpl. rewrite <- IH. reflexivity.
    + exists []. reflexivity.
Qed.

Lemma lstrip_head (s : text) :
  match lstrip s with
  | [] => True
  | c :: _ => is_space c = false
  end.
Proof.
  induction s as [|c s IH]; simpl; [exact I|].
  destruct (is_space c) eqn:Hc; [exact IH | exact Hc].
Qed.

Lemma lstrip_fixed (s : text) :
  match s with
  | [] => True
  | c :: _ => is_space c = false
  end ->
  lstrip s = s.
Proof. destruct s as [|c s]; simpl; [reflexivity|]. intros ->. reflexivity. Qed.

Lemma lstrip_idempotent (s : text) : lstrip (lstrip s) = lstrip s.
Proof. apply lstrip_fixed, lstrip_head. Qed.

Lemma strip_idempotent (s : text) : strip (strip s) = strip s.
Proof.
  unfold strip, rstrip.
  pose proof (lstrip_head s) as Hhead.
  destruct (lstrip_suffix (rev (lstrip s))) as [blank Hblank].
  assert (lstrip s = rev (lstrip (rev (lstrip s))) ++ rev blank) as Hsplit.
  { rewrite <- rev_app_distr, <- Hblank, rev_involutive. reflexivity. }
  assert (lstrip (rev (lstrip (rev (lstrip s))))
          = rev (lstrip (rev (lstrip s)))) as Hkeep.
  { apply lstrip_fixed.
    destruct (rev (lstrip (rev (lstrip s)))) as [|c b]; [exact I|].
    rewrite Hsplit in Hhead. exact Hhead. }
  rewrite Hkeep, rev_involutive, lstrip_idempotent. reflexivity.
Qed.

(** C4, as the code has it: the pages kept are the pages that gave a text
    that is not empty, in page order, the pages that raised or gave nothing
    being left out; when there is one, the result is their texts joined
    with newlines and stripped of the white space at both ends; when there
    is none, or the document cannot be opened, [ScraperError] is raised. *)
Theorem extract_text_from_pdf_pages (E : environment) (pdf_content : bytes) :
  (pdf_pages E pdf_content = None ->
   extract_text_from_pdf E pdf_content = ScraperError)
  /\
  (forall pages,
     pdf_pages E pdf_content = Some pages ->
     List.map (fun t => PageText (Some t)) (text_parts pages)
     = List.filter gives_text pages
     /\ (List.filter gives_text pages <> [] ->
         extract_text_from_pdf E pdf_content
         = Return (strip (join [10] (text_parts pages))))
     /\ (List.filter gives_text pages = [] ->
         extract_text_from_pdf E pdf_content = ScraperError)).
Proof.
  split.
  - intros Hclosed. unfold extract_text_from_pdf. rewrite Hclosed. reflexivity.
  - intros pages Hopen. pose proof (text_parts_filter pages) as Hparts.
    split; [exact Hparts|]. unfold extract_text_from_pdf. rewrite Hopen.
    split; intros Hsome.
    + destruct (text_parts pages) as [|t ts]; [|reflexivity].
      simpl in Hparts. congruence.
    + destruct (text_parts pages) as [|t ts]; [reflexivity|].
      rewrite Hsome in Hparts. discriminate.
Qed.

Lemma extract_text_from_pdf_pages_witness :
  extract_text_from_pdf quiet_environment [] = ScraperError
  /\ text_parts three_pages = [cp "first"; cp "third "]
  /\ extract_text_from_pdf
       (environment_of [] three_pages (fun _ _ _ => WriteOk)) []
     = Return (cp "first" ++ [10] ++ cp "third")
  /\ extract_text_from_pdf
       (environment_of [] [PageRaises; PageText None; PageText (Some [])]
          (fun _ _ _ => WriteOk)) []
     = ScraperError.
Proof.
  split; [|split; [|split]].
  - apply (proj1 (extract_text_from_pdf_pages quiet_environment [])).
    reflexivity.
  - reflexivity.
  - apply (proj2 (extract_text_from_pdf_pages
                    (environment_of [] three_pages (fun _ _ _ => WriteOk)) [])
             three_pages eq_refl).
    discriminate.
  - apply (proj2 (extract_text_from_pdf_pages
                    (environment_of [] [PageRaises; PageText None;
                                        PageText (Some [])]
                       (fun _ _ _ => WriteOk)) [])
             [PageRaises; PageText None; PageText (Some [])] eq_refl).
    reflexivity.
Defined.

(** A page text that starts with a space does not come back as it is. *)
Lemma extract_text_from_pdf_strips :
  text_parts [PageText (Some (cp " a"))] = [cp " a"]
  /\ extract_text_from_pdf
       (environment_of [] [PageText (Some (cp " a"))] (fun _ _ _ => WriteOk)) []
     = Return (cp "a")
  /\ cp "a" <> join [10] [cp " a"].
Proof. repeat split. discriminate. Qed.

(** ** Persisting *)

Lemma strip_of_stripped_nonempty (s : text) :
  strip s <> [] ->
  exists c t, strip (strip s) = c :: t /\ strip s = c :: t.
Proof.
  intros Hne. rewrite strip_idempotent.
  destruct (strip s) as [|c t]; [congruence|]. eauto.
Qed.

(** C1, as the code has it: for a date whose file is not there, whose
    download gives a document and whose extraction gives a text that is
    not empty, [process_date] writes that extracted text, as it is, to the
    path of the date and returns [True] when the write succeeds; the
    cleaner is not applied on this way. *)
Theorem process_date_saves_extracted_text (self : scraper) (E : environment)
    (date_str : text) (w w1 : world) (pdf_content : bytes) (pages : list page) :
  files w !! txt_path self date_str = None ->
  download_pdf self E date_str (emit (EExists (txt_path self date_str)) w)
  = (w1, Some pdf_content) ->
  pdf_pages E pdf_content = Some pages ->
  strip (join [10] (text_parts pages)) <> [] ->
  disk_write E (history w1) (txt_path self date_str)
    (strip (join [10] (text_parts pages))) = WriteOk ->
  process_date self E date_str w
  = (put_file (txt_path self date_str) (strip (join [10] (text_parts pages)))
       (emit (EOpenWrite (txt_path self date_str)) w1), true)
  /\ files (fst (process_date self E date_str w)) !! txt_path self date_str
     = Some (strip (join [10] (text_parts pages))).
Proof.
  intros Habsent Hfetch Hopen Htext Hwrite.
  assert (process_date self E date_str w
          = (put_file (txt_path self date_str)
               (strip (join [10] (text_parts pages)))
               (emit (EOpenWrite (txt_path self date_str)) w1), true)) as Hrun.
  { unfold process_date. rewrite Habsent, Hfetch.
    unfold extract_text_from_pdf. rewrite Hopen.
    destruct (text_parts pages) as [|p ps] eqn:Hparts.
    { exfalso. apply Htext. reflexivity. }
    destruct (strip_of_stripped_nonempty _ Htext) as (c & t & Hss & Hs).
    rewrite Hs. unfold save_text_file. rewrite <- Hs, Hss.
    unfold write_file. rewrite Hwrite. reflexivity. }
  split; [exact Hrun|].
  rewrite Hrun. simpl. apply lookup_insert_eq.
Qed.

Lemma process_date_saves_extracted_text_witness :
  process_date default_scraper serves_raw_page (cp "20240131") empty_world
  = (put_file (txt_path default_scraper (cp "20240131"))
       (cp "Page 1 of 2  Hello")
       (emit (EOpenWrite (txt_path default_scraper (cp "20240131")))
          {| files := ∅;
             history :=
               [EExists (txt_path default_scraper (cp "20240131"));
                EGet (pdf_url default_scraper (cp "20240131")) 30] |}),
     true)
  /\ files (fst (process_date default_scraper serves_raw_page
                   (cp "20240131") empty_world))
     !! txt_path default_scraper (cp "20240131")
     = Some (cp "Page 1 of 2  Hello").
Proof.
  apply (process_date_saves_extracted_text default_scraper serves_raw_page
           (cp "20240131") empty_world _ [] one_raw_page).
  - apply lookup_empty.
  - reflexivity.
  - reflexivity.
  - vm_compute. discriminate.
  - reflexivity.
Defined.

(** The file written for a date holds the extracted text, which the
    cleaner would have changed. *)
Lemma process_date_does_not_clean :
  files (fst (process_date default_scraper serves_raw_page (cp "20240131")
                empty_world))
  !! txt_path default_scraper (cp "20240131")
  = Some (cp "Page 1 of 2  Hello")
  /\ clean_extracted_text ascii_only default_scraper
       (join [10] (text_parts one_raw_page))
     = cp "Hello"
  /\ cp "Page 1 of 2  Hello" <> cp "Hello".
Proof.
  split; [|split].
  - vm_compute. reflexivity.
  - vm_compute. reflexivity.
  - discriminate.
Qed.

(** C9, as the code has it: [save_text_file] writes in place. The path of
    the date is opened for writing, which creates or truncates the file,
    and the content is written to it: when both succeed the file holds
    the whole content; when [open] raises the file is as it was; when the
    write raises after the open, the file under the final name holds the
    part written so far. No other file changes. *)
Theorem save_text_file_in_place (self : scraper) (E : environment)
    (date_str text_content : text) (w : world) :
  strip text_content <> [] ->
  (forall other,
     other <> txt_path self date_str ->
     files (fst (save_text_file self E date_str text_content w)) !! other
     = files w !! other)
  /\
  match disk_write E (history w) (txt_path self date_str) text_content with
  | WriteOk =>
      snd (save_text_file self E date_str text_content w) = true /\
      files (fst (save_text_file self E date_str text_content w))
      !! txt_path self date_str = Some text_content
  | OpenFails =>
      snd (save_text_file self E date_str text_content w) = false /\
      files (fst (save_text_file self E date_str text_content w))
      !! txt_path self date_str = files w !! txt_path self date_str
  | WriteFails n =>
      snd (save_text_file self E date_str text_content w) = false /\
      files (fst (save_text_file self E date_str text_content w))
      !! txt_path self date_str = Some (take n text_content)
  end.
Proof.
  intros Hne. unfold save_text_file.
  destruct (strip text_content) as [|c t]; [congruence|].
  unfold write_file.
  destruct (disk_write E (history w) (txt_path self date_str) text_content);
    simpl; split; try split; try reflexivity;
    try (intros other Hother; apply lookup_insert_ne; congruence);
    try apply lookup_insert_eq.
Qed.

Lemma save_text_file_in_place_witness :
  snd (save_text_file default_scraper write_interrupted (cp "20240131")
         (cp "Hello world") empty_world) = false
  /\ files (fst (save_text_file default_scraper write_interrupted
                   (cp "20240131") (cp "Hello world") empty_world))
     !! txt_path default_scraper (cp "20240131") = Some (cp "Hel").
Proof.
  apply (proj2 (save_text_file_in_place default_scraper write_interrupted
                  (cp "20240131") (cp "Hello world") empty_world
                  ltac:(vm_compute; discriminate))).
Defined.

(** A write that stops after three characters leaves those three under
    the final name: in [save_text_file], where there was no file before,
    and in the loop of [clean_all_text_files], where the file held the
    text to be cleaned. *)
Lemma interrupted_write_leaves_partial_file :
  (files empty_world !! txt_path default_scraper (cp "20240131") = None
   /\ files (fst (save_text_file default_scraper write_interrupted
                    (cp "20240131") (cp "Hello world") empty_world))
      !! txt_path default_scraper (cp "20240131") = Some (cp "Hel")
   /\ cp "Hel" <> cp "Hello world")
  /\
  (files saved_before !! txt_path default_scraper (cp "20240131")
   = Some (cp "Page 1 of 2 Hello world")
   /\ clean_extracted_text ascii_only default_scraper
        (cp "Page 1 of 2 Hello world") = cp "Hello world"
   /\ files (fst (clean_text_file ascii_only default_scraper write_interrupted
                    (txt_path default_scraper (cp "20240131")) saved_before))
      !! txt_path default_scraper (cp "20240131") = Some (cp "Hel")
   /\ cp "Hel" <> cp "Page 1 of 2 Hello world"
   /\ cp "Hel" <> cp "Hello world").
Proof.
  repeat split; try discriminate; vm_compute; reflexivity.
Qed.

(** ** The batch *)

Lemma download_attempts_history (self : scraper) (E : environment)
    (url : text) (remaining : nat) :
  forall (attempt : Z) (w : world),
  exists new,
    history (fst (download_attempts self E url remaining attempt w))
    = history w ++ new
    /\ probes new = [].
Proof.
  induction remaining as [|n IH]; intros attempt w; simpl.
  - exists []. rewrite app_nil_r. auto.
  - destruct (http E (history w) url) as [status body|].
    + destruct (status =? 200)%Z; [exists [EGet url (request_timeout (config self))]; auto|].
      destruct (status =? 404)%Z; [exists [EGet url (request_timeout (config self))]; auto|].
      destruct (IH (attempt + 1)%Z
                  (emit (EGet url (request_timeout (config self))) w))
        as (new & Hnew & Hprobes).
      exists (EGet url (request_timeout (config self)) :: new).
      rewrite Hnew. simpl. rewrite <- app_assoc. auto.
    + destruct (attempt <? max_retries (config self) - 1)%Z;
        [|exists [EGet url (request_timeout (config self))]; auto].
      destruct (IH (attempt + 1)%Z
                  (emit (ESleep (retry_delay (config self)))
                     (emit (EGet url (request_timeout (config self))) w)))
        as (new & Hnew & Hprobes).
      exists (EGet url (request_timeout (config self))
              :: ESleep (retry_delay (config self)) :: new).
      rewrite Hnew. simpl. rewrite <- !app_assoc. auto.
Qed.

Lemma save_text_file_history (self : scraper) (E : environment)
    (date_str text_content : text) (w : world) :
  exists new,
    history (fst (save_text_file self E date_str text_content w))
    = history w ++ new
    /\ probes new = [].
Proof.
  unfold save_text_file.
  destruct (strip text_content); [exists []; rewrite app_nil_r; auto|].
  unfold write_file.
  exists [EOpenWrite (txt_path self date_str)].
  destruct (disk_write E (history w) (txt_path self date_str) text_content);
    auto.
Qed.

Lemma process_date_history (self : scraper) (E : environment)
    (date_str : text) (w : world) :
  exists mid,
    history (fst (process_date self E date_str w))
    = history w ++ EExists (txt_path self date_str) :: mid
    /\ probes mid = [].
Proof.
  unfold process_date.
  destruct (files w !! txt_path self date_str).
  { exists []. auto. }
  unfold download_pdf.
  destruct (download_attempts_history self E (pdf_url self date_str)
              (Z.to_nat (max_retries (config self))) 0%Z
              (emit (EExists (txt_path self date_str)) w))
    as (new & Hnew & Hprobes).
  destruct (download_attempts self E (pdf_url self date_str)
              (Z.to_nat (max_retries (config self))) 0%Z
              (emit (EExists (txt_path self date_str)) w)) as [w1 r].
  simpl in Hnew. rewrite <- app_assoc in Hnew. simpl in Hnew.
  destruct r as [pdf_content|]; [|exists new; auto].
  destruct (extract_text_from_pdf E pdf_content) as [[|c t]|];
    try (exists new; auto; fail).
  destruct (save_text_file_history self E date_str (c :: t) w1)
    as (new' & Hnew' & Hprobes').
  exists (new ++ new'). rewrite Hnew', Hnew, <- app_assoc. simpl.
  rewrite probes_app, Hprobes, Hprobes'. auto.
Qed.

(** The loop counts the dates that [process_date] answered with [True],
    and its calls are those of the dates one after the other, each
    followed by one sleep of [delay]. *)
Lemma scrape_loop_run (self : scraper) (E : environment) (dates : list text) :
  forall (success_count : Z) (w : world),
    snd (scrape_loop self E dates success_count w)
    = (success_count + Z.of_nat (successes (batch_outcomes self E dates w)))%Z
    /\ exists segments,
        Forall2 (date_segment self) dates segments
        /\ history (fst (scrape_loop self E dates success_count w))
           = history w ++ concat segments.
Proof.
  induction dates as [|d dates IH]; intros c w; simpl.
  - split; [unfold successes; simpl; lia|].
    exists []. rewrite app_nil_r. auto.
  - destruct (process_date_history self E d w) as (mid & Hmid & Hprobes).
    destruct (process_date self E d w) as [w1 ok]. simpl in Hmid.
    destruct (IH (if ok then (c + 1)%Z else c)
                (emit (ESleep (delay (config self))) w1))
      as (Hcount & segments & Hsegs & Hhist).
    split.
    + rewrite Hcount. unfold successes. destruct ok; simpl; lia.
    + exists ((EExists (txt_path self d) :: mid
               ++ [ESleep (delay (config self))]) :: segments).
      split.
      * constructor; [|exact Hsegs]. exists mid. auto.
      * rewrite Hhist. simpl. rewrite Hmid, <- !app_assoc. reflexivity.
Qed.

Lemma segments_probes (self : scraper) (dates : list text)
    (segments : list (list event)) :
  Forall2 (date_segment self) dates segments ->
  probes (concat segments) = List.map (txt_path self) dates.
Proof.
  induction 1 as [|d seg dates segments (mid & -> & Hmid) _ IH]; simpl;
    [reflexivity|].
  rewrite <- app_assoc, !probes_app, Hmid, IH. reflexivity.
Qed.

(** C6: for five dates of which [process_date] answers three with [True]
    and two with [False], [scrape_predefined_dates] returns (3, 5); the
    dates are taken in the order of the list, and each of the five is
    followed by one sleep of [delay], the last one too. *)
Theorem scrape_predefined_dates_five (self : scraper) (E : environment)
    (dates : list text) (w : world) :
  load_dates_from_file E = Return dates ->
  length dates = 5%nat ->
  successes (batch_outcomes self E dates w) = 3%nat ->
  snd (scrape_predefined_dates self E w) = Return (3%Z, 5%Z)
  /\ exists segments,
      length segments = 5%nat
      /\ Forall2 (date_segment self) dates segments
      /\ history (fst (scrape_predefined_dates self E w))
         = history w ++ concat segments
      /\ probes (concat segments) = List.map (txt_path self) dates.
Proof.
  intros Hload Hlen Hok. unfold scrape_predefined_dates. rewrite Hload.
  destruct dates as [|d dates]; [discriminate|].
  set (ds := d :: dates) in *.
  destruct (scrape_loop_run self E ds 0%Z w)
    as (Hcount & segments & Hsegs & Hhist).
  destruct (scrape_loop self E ds 0 w) as [w1 n].
  cbn [fst snd] in *.
  split.
  - rewrite Hcount, Hok, Hlen. reflexivity.
  - exists segments. repeat split; auto.
    + rewrite <- (Forall2_length _ _ _ Hsegs). exact Hlen.
    + apply segments_probes. exact Hsegs.
Qed.

Lemma scrape_predefined_dates_five_witness :
  snd (scrape_predefined_dates default_scraper five_dates_environment
         second_date_saved) = Return (3%Z, 5%Z)
  /\ exists segments,
      length segments = 5%nat
      /\ Forall2 (date_segment default_scraper) five_dates segments
      /\ history (fst (scrape_predefined_dates default_scraper
                         five_dates_environment second_date_saved))
         = history second_date_saved ++ concat segments
      /\ probes (concat segments)
         = List.map (txt_path default_scraper) five_dates.
Proof.
  apply (scrape_predefined_dates_five default_scraper five_dates_environment
           five_dates second_date_saved).
  - vm_compute. reflexivity.
  - reflexivity.
  - vm_compute. reflexivity.
Defined.

(** The same run, call by call: the answers are [True], [True], [True],
    [False], [False], and of the seven sleeps the five of one second are
    those of the loop, after each date. *)
Example five_dates_run :
  batch_outcomes default_scraper five_dates_environment five_dates
    second_date_saved = [true; true; true; false; false]
  /\ sleeps (history (fst (scrape_predefined_dates default_scraper
                             five_dates_environment second_date_saved)))
     = [1; 1; 1; 1; 2; 2; 1]%Q
  /\ length (requests (history (fst (scrape_predefined_dates default_scraper
                             five_dates_environment second_date_saved))))
     = 6%nat.
Proof. vm_compute. repeat split. Qed.

(** ** The matcher *)

Section BacktrackFacts.
Variable rest : text -> option nat.
Variable least : nat.
Variable s : text.

Lemma backtrack_some (k n : nat) :
  backtrack rest least s k = Some n ->
  exists k' m,
    (least <= k' <= k)%nat /\ rest (drop k' s) = Some m /\ n = (k' + m)%nat.
Proof.
  induction k as [|k IH]; simpl.
  - destruct (Nat.ltb_spec 0 least); [discriminate|].
    destruct (rest (drop 0 s)) as [m|] eqn:Hm; [|discriminate].
    intros [= <-]. exists O, m. repeat split; auto; lia.
  - destruct (Nat.ltb_spec (S k) least); [discriminate|].
    destruct (rest (drop (S k) s)) as [m|] eqn:Hm.
    + intros [= <-]. exists (S k), m. repeat split; auto; lia.
    + intros Hk. destruct (IH Hk) as (k' & m & Hk' & Hrest & ->).
      exists k', m. repeat split; auto; lia.
Qed.

(** When no shorter run lets the rest match, only the longest counts. *)
Lemma backtrack_longest (k : nat) :
  (forall k', (least <= k' < k)%nat -> rest (drop k' s) = None) ->
  backtrack rest least s k
  = if (k <? least)%nat then None
    else match rest (drop k s) with
         | Some m => Some (k + m)%nat
         | None => None
         end.
Proof.
  intros Hbelow.
  destruct k as [|k]; simpl; [destruct (rest s), (0 <? least)%nat; reflexivity|].
  destruct (Nat.ltb_spec (S k) least); [reflexivity|].
  destruct (rest (drop (S k) s)); [reflexivity|].
  assert (forall j, (j <= k)%nat -> backtrack rest least s j = None) as Hnone.
  { induction j as [|j IHj]; intros Hj; simpl.
    - destruct (Nat.ltb_spec 0 least); [reflexivity|].
      rewrite (Hbelow O) by lia. reflexivity.
    - destruct (Nat.ltb_spec (S j) least); [reflexivity|].
      rewrite (Hbelow (S j)) by lia. apply IHj. lia. }
  apply Hnone. lia.
Qed.
End BacktrackFacts.

Lemma backtrack_ext (rest1 rest2 : text -> option nat) (least : nat)
    (s1 s2 : text) (k : nat) :
  (forall k', (k' <= k)%nat -> rest1 (drop k' s1) = rest2 (drop k' s2)) ->
  backtrack rest1 least s1 k = backtrack rest2 least s2 k.
Proof.
  induction k as [|k IH]; intros Hsame; simpl.
  - rewrite (Hsame O) by lia. reflexivity.
  - rewrite (Hsame (S k)) by lia. rewrite IH; [reflexivity|].
    intros k' Hk'. apply Hsame. lia.
Qed.

Lemma run_length_le (cls : N -> bool) (s : text) :
  forall cap, (run_length cls cap s <= length s)%nat.
Proof.
  intros [n|]; simpl.
  - revert s. induction n as [|n IH]; intros [|c s]; simpl; try lia.
    destruct (cls c); simpl; [|lia]. specialize (IH s). lia.
  - induction s as [|c s IH]; simpl; [lia|].
    destruct (cls c); simpl; lia.
Qed.

Lemma match_items_le (p : pattern) :
  forall (s : text) (n : nat),
    match_items p s = Some n -> (n <= length s)%nat.
Proof.
  induction p as [|it p IH]; intros s n; simpl.
  - intros [= <-]. lia.
  - intros Hm. apply backtrack_some in Hm as (k & m & Hk & Hrest & ->).
    apply IH in Hrest. rewrite length_drop in Hrest.
    pose proof (run_length_le (accepts it) s (hi it)). lia.
Qed.

(** A character that no item of the pattern takes hides what follows it
    from the matcher. *)
Lemma run_length_barrier (cls : N -> bool) (j : N) (x : text) :
  cls j = false ->
  forall (u : text) (cap : option nat),
    run_length cls cap (u ++ j :: x) = run_length cls cap u.
Proof.
  intros Hj u [n|]; simpl.
  - revert u. induction n as [|n IH]; intros [|c u]; simpl;
      rewrite ?Hj; try reflexivity.
    destruct (cls c); rewrite ?IH; reflexivity.
  - induction u as [|c u IH]; simpl; rewrite ?Hj; [reflexivity|].
    destruct (cls c); rewrite ?IH; reflexivity.
Qed.

Lemma match_items_barrier (j : N) (x : text) (p : pattern) :
  Forall (fun it => accepts it j = false) p ->
  forall u : text, match_items p (u ++ j :: x) = match_items p u.
Proof.
  induction 1 as [|it p Hit _ IH]; intros u; simpl; [reflexivity|].
  rewrite (run_length_barrier _ j x Hit).
  apply backtrack_ext. intros k Hk.
  pose proof (run_length_le (accepts it) u (hi it)) as Hle.
  rewrite drop_app_le by lia. apply IH.
Qed.

Lemma run_length_all (cls : N -> bool) (w x : text) :
  forallb cls w = true ->
  run_length cls None (w ++ x) = (length w + run_length cls None x)%nat.
Proof.
  unfold run_length.
  induction w as [|c w IH]; simpl; [reflexivity|].
  intros H. apply andb_true_iff in H as [Hc Hw].
  rewrite Hc, IH by exact Hw. reflexivity.
Qed.

Lemma run_length_inside (cls : N -> bool) (s : text) :
  forall k, (k < run_length cls None s)%nat ->
    exists c x, drop k s = c :: x /\ cls c = true.
Proof.
  unfold run_length.
  induction s as [|c s IH]; intros k; simpl; [lia|].
  destruct (cls c) eqn:Hc; [|lia].
  destruct k as [|k]; simpl.
  - eauto.
  - intros Hk. apply IH. lia.
Qed.

(** The string splits into the run and what stops it. *)
Lemma run_length_split (cls : N -> bool) (s : text) :
  forallb cls (take (run_length cls None s) s) = true
  /\ match drop (run_length cls None s) s with
     | [] => True
     | d :: _ => cls d = false
     end.
Proof.
  unfold run_length.
  induction s as [|c s [IHrun IHstop]]; simpl; [auto|].
  destruct (cls c) eqn:Hc; simpl; [rewrite Hc|]; auto.
Qed.

(** [x+y+...] with [x] and [y] disjoint: [x+] never gives back. *)
Lemma match_plus_disjoint (cls cls2 : N -> bool) (q : pattern) (s : text) :
  (forall c, cls c = true -> cls2 c = false) ->
  match_items (plus cls :: plus cls2 :: q) s
  = match run_length cls None s with
    | O => None
    | S n =>
        match match_items (plus cls2 :: q) (drop (S n) s) with
        | Some m => Some (S n + m)%nat
        | None => None
        end
    end.
Proof.
  intros Hdisjoint.
  change (match_items (plus cls :: plus cls2 :: q) s)
    with (backtrack (match_items (plus cls2 :: q)) 1 s
            (run_length cls None s)).
  rewrite backtrack_longest.
  - destruct (run_length cls None s); reflexivity.
  - intros k Hk.
    destruct (run_length_inside cls s k) as (c & x & -> & Hc); [lia|].
    simpl. rewrite (Hdisjoint c Hc). reflexivity.
Qed.

(** ** Substitution *)

Lemma sub_from_skip (p : pattern) (repl : text) (a b : text) :
  sub_from p repl (length a) (a ++ b) = sub_from p repl O b.
Proof.
  induction a as [|c a IH]; simpl; [|exact IH].
  destruct b; reflexivity.
Qed.

Lemma sub_no_match (p : pattern) (repl : text) (s : text) :
  finds p s = false -> sub p repl s = s.
Proof.
  unfold sub. induction s as [|c s IH]; simpl.
  - destruct (match_items p []); [discriminate|reflexivity].
  - destruct (match_items p (c :: s)); [discriminate|].
    intros H. rewrite IH by exact H. reflexivity.
Qed.

(** With nothing put in their place, what is left of a text after the
    matches are removed is made of its characters. *)
Lemma sub_from_forallb (p : pattern) (cls : N -> bool) (s : text) :
  forallb cls s = true ->
  forall skip, forallb cls (sub_from p [] skip s) = true.
Proof.
  induction s as [|c s IH]; intros Hs skip.
  - simpl. destruct skip, (match_items p []); reflexivity.
  - simpl in Hs. apply andb_true_iff in Hs as [Hc Hs].
    cbn [sub_from]. destruct skip as [|skip]; [|apply IH, Hs].
    destruct (match_items p (c :: s)) as [[|n]|]; cbn [app forallb];
      rewrite ?Hc, ?IH by exact Hs; reflexivity.
Qed.

(** ** A footer behind any text

    The pattern is [x+y+...], with [x] and [y] disjoint, and the footer
    starts with a character that nothing after [x+] takes; the footer,
    with any run of [x] glued before it, is matched as a whole. Then the
    scan of [pre ++ footer ++ post] goes as the scan of [pre] alone up to
    the run of [x] that ends [pre], removes that run with the footer, and
    goes on with [post]. *)

Section FooterRemoval.
Variables cls cls2 : N -> bool.
Variable q : pattern.
Variable j : N.
Variables footer' post : text.

Let p : pattern := plus cls :: plus cls2 :: q.
Let footer : text := j :: footer'.

Hypothesis disjoint : forall c, cls c = true -> cls2 c = false.
Hypothesis barrier :
  Forall (fun it => accepts it j = false) (plus cls2 :: q).
Hypothesis footer_matched :
  forall w, forallb cls w = true ->
    match_items p (w ++ footer ++ post)
    = Some (length w + length footer)%nat.

Lemma ends_in_tail (c : N) (pre : text) :
  ends_in cls (c :: pre) = false -> ends_in cls pre = false.
Proof.
  destruct pre as [|d pre]; [reflexivity|].
  unfold ends_in. rewrite last_cons_cons. auto.
Qed.

Lemma ends_in_all (pre : text) :
  pre <> [] -> forallb cls pre = true -> ends_in cls pre = true.
Proof.
  unfold ends_in. induction pre as [|c pre IH]; [congruence|].
  intros _ H. simpl in H. apply andb_true_iff in H as [Hc Hpre].
  destruct pre as [|d pre]; [exact Hc|].
  rewrite last_cons_cons. apply IH; [congruence | exact Hpre].
Qed.

Lemma footer_scan (pre : text) :
  forall skip, (skip <= length pre)%nat ->
    (exists k,
        sub_from p [] skip (pre ++ footer ++ post)
        = take k (sub_from p [] skip pre) ++ sub_from p [] O post
        /\ forallb cls (drop k (sub_from p [] skip pre)) = true)
    /\ (ends_in cls pre = false ->
        sub_from p [] skip (pre ++ footer ++ post)
        = sub_from p [] skip pre ++ sub_from p [] O post).
Proof.
  induction pre as [|c pre IH]; intros skip Hskip.
  - assert (skip = O) as -> by (simpl in Hskip; lia).
    assert (sub_from p [] O ([] ++ footer ++ post) = sub_from p [] O post)
      as Hfooter.
    { pose proof (footer_matched [] eq_refl) as Hm. simpl in Hm.
      simpl. unfold footer in Hm. simpl in Hm. fold p. rewrite Hm.
      apply sub_from_skip. }
    assert (sub_from p [] O [] = []) as Hnil.
    { simpl. reflexivity. }
    rewrite Hfooter, Hnil. split; [exists O; split; reflexivity | reflexivity].
  - destruct skip as [|skip].
    2:{ destruct (IH skip ltac:(simpl in Hskip; lia)) as [[k Hk] Hkeep].
        cbn [sub_from app]. split; [exists k; exact Hk|].
        intros Hends. apply Hkeep, (ends_in_tail _ _ Hends). }
    pose proof (run_length_split cls (c :: pre)) as [Hrun Hstop].
    pose proof (run_length_le cls (c :: pre) None) as Hle.
    set (n := run_length cls None (c :: pre)) in *.
    destruct (drop n (c :: pre)) as [|d rest] eqn:Hdrop.
    + (* the run reaches the end of [pre] *)
      assert (n = length (c :: pre)) as Hn.
      { apply (f_equal length) in Hdrop. rewrite length_drop in Hdrop.
        cbn [length] in *. lia. }
      rewrite Hn, firstn_all in Hrun.
      pose proof (footer_matched (c :: pre) Hrun) as Hm.
      assert (sub_from p [] O ((c :: pre) ++ footer ++ post)
              = sub_from p [] O post) as Hgone.
      { cbn [sub_from app]. cbn [app] in Hm. rewrite Hm.
        cbn [length Nat.add]. rewrite app_assoc, <- length_app.
        apply sub_from_skip. }
      rewrite Hgone. split.
      { exists O. split; [reflexivity|].
        apply (sub_from_forallb p cls (c :: pre) Hrun O). }
      intros Hends. rewrite (ends_in_all (c :: pre)) in Hends;
        [discriminate | congruence | exact Hrun].
    + (* the run stops inside [pre] *)
      assert (c :: pre = take n (c :: pre) ++ d :: rest) as Hsplit.
      { rewrite <- Hdrop. symmetry. apply take_drop. }
      assert (length (take n (c :: pre)) = n) as Hlen
          by (rewrite length_take; lia).
      assert (run_length cls None ((c :: pre) ++ footer ++ post) = n)
        as Hfull.
      { rewrite Hsplit at 1. rewrite <- app_assoc.
        rewrite run_length_all by exact Hrun.
        rewrite Hlen. simpl. rewrite Hstop. lia. }
      assert (match_items p ((c :: pre) ++ footer ++ post)
              = match_items p (c :: pre)) as Hsame.
      { unfold p. rewrite !match_plus_disjoint by exact disjoint.
        rewrite Hfull. fold n. destruct n as [|n']; [reflexivity|].
        rewrite drop_app_le by lia. rewrite Hdrop.
        unfold footer.
        change ((j :: footer') ++ post) with (j :: footer' ++ post).
        rewrite (match_items_barrier j (footer' ++ post) _ barrier
                   (d :: rest)).
        reflexivity. }
      assert (forall m, match_items p (c :: pre) = Some m ->
                        exists m', m = S m' /\ (m' <= length pre)%nat)
        as Hpositive.
      { intros m Hm. pose proof (match_items_le _ _ _ Hm) as Hmle.
        unfold p in Hm. rewrite match_plus_disjoint in Hm by exact disjoint.
        fold n in Hm. destruct n as [|n']; [discriminate|].
        destruct (match_items (plus cls2 :: q) (drop (S n') (c :: pre)));
          [|discriminate].
        injection Hm as <-. eexists. split; [reflexivity|].
        simpl in Hmle. lia. }
      cbn [sub_from app]. cbn [app] in Hsame. rewrite Hsame.
      destruct (match_items p (c :: pre)) as [m|] eqn:Hm.
      * destruct (Hpositive m eq_refl) as (m' & -> & Hm').
        destruct (IH m' Hm') as [[k Hk] Hkeep].
        split; [exists k; exact Hk|].
        intros Hends. apply Hkeep, (ends_in_tail _ _ Hends).
      * destruct (IH O ltac:(lia)) as [[k [Hk Hdropped]] Hkeep]. split.
        -- exists (S k). rewrite Hk. split; [reflexivity | exact Hdropped].
        -- intros Hends. rewrite Hkeep by exact (ends_in_tail _ _ Hends).
           reflexivity.
Qed.
End FooterRemoval.

(** ** The dated footer *)

Lemma ascii_letter_range (c : N) :
  ascii_letter c = true -> 65 <= c <= 122.
Proof.
  unfold ascii_letter. intros H.
  apply orb_true_iff in H as [H|H]; apply andb_true_iff in H as [H1 H2];
    apply N.leb_le in H1, H2; lia.
Qed.

Lemma letter_not_space (c : N) :
  ascii_letter c = true -> is_space c = false.
Proof.
  intros H. apply ascii_letter_range in H. unfold is_space.
  replace (c <=? 13) with false by (symmetry; apply N.leb_gt; lia).
  replace (c <=? 32) with false by (symmetry; apply N.leb_gt; lia).
  replace (c =? 133) with false by (symmetry; apply N.eqb_neq; lia).
  replace (c =? 160) with false by (symmetry; apply N.eqb_neq; lia).
  replace (c =? 5760) with false by (symmetry; apply N.eqb_neq; lia).
  replace (8192 <=? c) with false by (symmetry; apply N.leb_gt; lia).
  replace (c =? 8232) with false by (symmetry; apply N.eqb_neq; lia).
  replace (c =? 8233) with false by (symmetry; apply N.eqb_neq; lia).
  replace (c =? 8239) with false by (symmetry; apply N.eqb_neq; lia).
  replace (c =? 8287) with false by (symmetry; apply N.eqb_neq; lia).
  replace (c =? 12288) with false by (symmetry; apply N.eqb_neq; lia).
  rewrite !andb_false_r. reflexivity.
Qed.

Lemma forallb_Forall {A : Type} (f : A -> bool) (l : list A) :
  forallb f l = true -> Forall (fun x => f x = true) l.
Proof.
  induction l as [|x l IH]; simpl; [constructor|].
  intros H. apply andb_true_iff in H as [Hx Hl]. constructor; auto.
Qed.

Section HeaderFacts.
Variable U : unicode_tables.

Lemma header_pattern_shape :
  header_pattern U
  = plus ascii_letter :: plus is_space :: tl (tl (header_pattern U)).
Proof. reflexivity. Qed.

(** Nothing after the month takes a [J]. *)
Lemma header_barrier :
  Forall (fun it => accepts it 74 = false) (tl (header_pattern U)).
Proof.
  assert (forallb (fun it => negb (accepts it 74)) (tl (header_pattern U))
          = true) as H by reflexivity.
  apply forallb_Forall in H.
  eapply Forall_impl; [exact H|].
  intros it Hit. apply negb_true_iff. exact Hit.
Qed.

Lemma header_footer_matched (post w : text) :
  forallb ascii_letter w = true ->
  match_items (header_pattern U) (w ++ dated_footer ++ post)
  = Some (length w + length dated_footer)%nat.
Proof.
  intros Hw. rewrite header_pattern_shape.
  rewrite match_plus_disjoint by exact letter_not_space.
  rewrite run_length_all by exact Hw.
  change (run_length ascii_letter None (dated_footer ++ post)) with 7%nat.
  replace (length w + 7)%nat with (S (length w + 6)) by lia.
  cbv beta iota.
  replace (S (length w + 6)) with (length w + 7)%nat by lia.
  rewrite drop_app_add.
  change (match_items (plus is_space :: tl (tl (header_pattern U)))
            (drop 7 (dated_footer ++ post)))
    with (Some 48%nat).
  change (length dated_footer) with 55%nat.
  f_equal. lia.
Qed.
End HeaderFacts.

(** A character that no item takes cuts the scan in two. *)
Lemma sub_from_barrier (p : pattern) (repl : text) (j : N) (x : text) :
  Forall (fun it => accepts it j = false) p ->
  match_items p [] = None ->
  forall (pre : text) (skip : nat),
    (skip <= length pre)%nat ->
    sub_from p repl skip (pre ++ j :: x)
    = sub_from p repl skip pre ++ sub_from p repl O (j :: x).
Proof.
  intros Hbarrier Hempty.
  induction pre as [|c pre IH]; intros skip Hskip.
  - assert (skip = O) as -> by (simpl in Hskip; lia).
    cbn [app sub_from]. rewrite Hempty. reflexivity.
  - destruct skip as [|skip].
    + cbn [sub_from app].
      change (c :: pre ++ j :: x) with ((c :: pre) ++ j :: x).
      rewrite (match_items_barrier j x p Hbarrier (c :: pre)).
      destruct (match_items p (c :: pre)) as [[|n]|] eqn:Hm.
      * rewrite IH by lia. rewrite <- app_assoc. reflexivity.
      * apply match_items_le in Hm. cbn [length] in Hm.
        rewrite IH by lia. rewrite <- app_assoc. reflexivity.
      * rewrite IH by lia. reflexivity.
    + cbn [sub_from app]. apply IH. cbn [length] in Hskip. lia.
Qed.

(** The removal of page markers passes over the footer. *)
Lemma remove_page_numbers_dated_footer (U : unicode_tables) (pre post : text) :
  remove_page_numbers U (pre ++ dated_footer ++ post)
  = remove_page_numbers U pre ++ dated_footer ++ remove_page_numbers U post.
Proof.
  unfold remove_page_numbers, sub.
  change (dated_footer ++ post) with (74 :: tl dated_footer ++ post).
  rewrite sub_from_barrier; [| |reflexivity|lia].
  - reflexivity.
  - assert (forallb (fun it => negb (accepts it 74)) (page_number_pattern U)
            = true) as H by reflexivity.
    apply forallb_Forall in H.
    eapply Forall_impl; [exact H|].
    intros it Hit. apply negb_true_iff. exact Hit.
Qed.

(** C2, as the code has it: the footer that the header pattern takes has
    the last digit of the year set apart, "January 31, 202 4 Chair
    Powell's Press Conference FINAL". Wherever it stands, header removal
    takes it out whole: what is left is what header removal leaves of the
    text before it, less some letters at its end (those that touch the
    footer go with the month; none when the text before does not end in a
    letter), followed by what header removal leaves of the text after it.
    In the chain of the cleaner the two sides are joined in this way
    before the titles are removed and the white space is collapsed. *)
Theorem remove_headers_dated_footer (U : unicode_tables) (pre post : text) :
  (exists k,
      remove_headers U (pre ++ dated_footer ++ post)
      = take k (remove_headers U pre) ++ remove_headers U post
      /\ forallb ascii_letter (drop k (remove_headers U pre)) = true)
  /\ (ends_with_letter pre = false ->
      remove_headers U (pre ++ dated_footer ++ post)
      = remove_headers U pre ++ remove_headers U post)
  /\ (exists k,
      structural_steps U (pre ++ dated_footer ++ post)
      = collapse_whitespace
          (remove_titles
             (remove_titles_with_date U
                (take k (remove_headers U (remove_page_numbers U pre))
                 ++ remove_headers U (remove_page_numbers U post))))).
Proof.
  assert (forall a b,
    (exists k,
        remove_headers U (a ++ dated_footer ++ b)
        = take k (remove_headers U a) ++ remove_headers U b
        /\ forallb ascii_letter (drop k (remove_headers U a)) = true)
    /\ (ends_with_letter a = false ->
        remove_headers U (a ++ dated_footer ++ b)
        = remove_headers U a ++ remove_headers U b)) as Hscan.
  { intros a b. unfold remove_headers, sub, ends_with_letter.
    rewrite header_pattern_shape.
    apply (footer_scan ascii_letter is_space (tl (tl (header_pattern U)))
             74 (tl dated_footer) b letter_not_space (header_barrier U)
             (header_footer_matched U b) a O).
    lia. }
  split; [exact (proj1 (Hscan pre post))|].
  split; [exact (proj2 (Hscan pre post))|].
  unfold structural_steps. rewrite remove_page_numbers_dated_footer.
  destruct (proj1 (Hscan (remove_page_numbers U pre)
                     (remove_page_numbers U post))) as [k [Hk _]].
  exists k. rewrite Hk. reflexivity.
Qed.

Lemma remove_headers_dated_footer_witness :
  remove_headers ascii_only
    (cp "Thank you. " ++ dated_footer ++ cp " Page 3 of 26")
  = cp "Thank you. " ++ cp " Page 3 of 26".
Proof.
  apply (proj1 (proj2 (remove_headers_dated_footer ascii_only
                         (cp "Thank you. ") (cp " Page 3 of 26")))).
  reflexivity.
Defined.

(** The same text through the five steps. *)
Example structural_steps_dated_footer :
  structural_steps ascii_only
    (cp "Thank you. " ++ dated_footer ++ cp " Page 3 of 26 CHAIR POWELL.")
  = cp "Thank you. CHAIR POWELL.".
Proof. vm_compute. reflexivity. Qed.

(** With the year in one piece, [\d{3}\s*\d] takes the whole of it and
    [\s+Chair] has to follow, where the page number stands: the pattern
    does not match, whatever the Unicode tables. *)
Lemma footer_with_page_no_match (U : unicode_tables) :
  finds (header_pattern U) footer_with_page = false.
Proof. reflexivity. Qed.

(** The span of the specification stays: header removal returns it as it
    is, and so does the whole cleaner. *)
Lemma footer_with_page_kept :
  remove_headers ascii_only footer_with_page = footer_with_page
  /\ clean_extracted_text ascii_only default_scraper footer_with_page
     = footer_with_page.
Proof. split; vm_compute; reflexivity. Qed.

(** ** Collapsing white space *)

Lemma whitespace_match (s : text) :
  match_items whitespace_pattern s
  = match run_all is_space s with
    | O => None
    | S n => Some (S n + 0)%nat
    end.
Proof.
  unfold whitespace_pattern. simpl.
  destruct (run_all is_space s); reflexivity.
Qed.

Lemma collapse_squeeze (s : text) :
  sub_from whitespace_pattern [32] O s = squeeze false s
  /\ sub_from whitespace_pattern [32] (run_all is_space s) s = squeeze true s.
Proof.
  induction s as [|c s [IH0 IHrun]].
  - split; reflexivity.
  - assert (sub_from whitespace_pattern [32] O (c :: s)
            = squeeze false (c :: s)) as H0.
    { cbn [sub_from squeeze]. rewrite whitespace_match.
      cbn [run_all]. destruct (is_space c).
      - rewrite Nat.add_0_r. cbn [app]. rewrite IHrun. reflexivity.
      - rewrite IH0. reflexivity. }
    split; [exact H0|].
    cbn [run_all]. destruct (is_space c) eqn:Hc.
    + cbn [sub_from squeeze]. rewrite Hc. exact IHrun.
    + rewrite H0. cbn [squeeze]. rewrite Hc. reflexivity.
Qed.

Lemma squeeze_idempotent (s : text) :
  squeeze false (squeeze false s) = squeeze false s
  /\ squeeze true (squeeze true s) = squeeze true s
  /\ squeeze false (squeeze true s) = squeeze true s.
Proof.
  induction s as [|c s (IH1 & IH2 & IH3)]; [repeat split|].
  cbn [squeeze]. destruct (is_space c) eqn:Hc.
  - repeat split; auto.
    cbn [squeeze]. change (is_space 32) with true. cbn iota.
    rewrite IH2. reflexivity.
  - cbn [squeeze]. rewrite Hc, IH1. repeat split.
Qed.

Lemma collapse_whitespace_idempotent (s : text) :
  collapse_whitespace (collapse_whitespace s) = collapse_whitespace s.
Proof.
  unfold collapse_whitespace, sub.
  rewrite !(proj1 (collapse_squeeze _)).
  apply squeeze_idempotent.
Qed.

(** C5, as the code has it: the output of steps 1 to 5 is a fixed point
    of step 5, the collapse of white space, for every input; and steps 1
    to 5 applied to their own output change nothing when that output has
    no match of the four boilerplate patterns. (Removing a match can
    join the text around it into a new match.) *)
Theorem structural_steps_stable (U : unicode_tables) (text_content : text) :
  collapse_whitespace (structural_steps U text_content)
  = structural_steps U text_content
  /\ (finds (page_number_pattern U) (structural_steps U text_content) = false ->
      finds (header_pattern U) (structural_steps U text_content) = false ->
      finds (transcript_with_date_pattern U)
        (structural_steps U text_content) = false ->
      finds transcript_pattern (structural_steps U text_content) = false ->
      structural_steps U (structural_steps U text_content)
      = structural_steps U text_content).
Proof.
  assert (collapse_whitespace (structural_steps U text_content)
          = structural_steps U text_content) as Hfixed.
  { unfold structural_steps. apply collapse_whitespace_idempotent. }
  split; [exact Hfixed|].
  intros Hpage Hheader Hdate Htitle.
  unfold structural_steps at 1.
  unfold remove_page_numbers. rewrite (sub_no_match _ _ _ Hpage).
  unfold remove_headers. rewrite (sub_no_match _ _ _ Hheader).
  unfold remove_titles_with_date. rewrite (sub_no_match _ _ _ Hdate).
  unfold remove_titles. rewrite (sub_no_match _ _ _ Htitle).
  exact Hfixed.
Qed.

Lemma structural_steps_stable_witness :
  structural_steps ascii_only first_page = cp " CHAIR POWELL. Good afternoon."
  /\ structural_steps ascii_only (structural_steps ascii_only first_page)
     = structural_steps ascii_only first_page.
Proof.
  split; [vm_compute; reflexivity|].
  apply (proj2 (structural_steps_stable ascii_only first_page));
    vm_compute; reflexivity.
Defined.

(** A page marker written with two spaces is no match for the first
    step; the collapse of white space makes one of it, which a second
    pass removes. *)
Lemma structural_steps_not_idempotent :
  structural_steps ascii_only (cp "Page  1 of 2") = cp "Page 1 of 2"
  /\ structural_steps ascii_only
       (structural_steps ascii_only (cp "Page  1 of 2")) = []
  /\ cp "Page 1 of 2" <> [].
Proof. repeat split; try discriminate; vm_compute; reflexivity. Qed.

(** A page marker inside a page marker: the first pass removes the inner
    one and leaves a marker. *)
Example structural_steps_nested_marker :
  structural_steps ascii_only (cp "PagePage 1 of 2 1 of 2") = cp "Page 1 of 2"
  /\ structural_steps ascii_only (cp "Page 1 of 2") = [].
Proof. split; vm_compute; reflexivity. Qed.

(** * Further properties *)

(** ** The fetcher, whatever the server does *)

Section FetcherBounds.
Variable self : scraper.
Variable E : environment.
Variable url : text.

Lemma download_attempts_shape (remaining : nat) :
  forall (attempt : Z) (w : world),
    (attempt + Z.of_nat remaining = max_retries (config self))%Z ->
    exists new,
      history (fst (download_attempts self E url remaining attempt w))
      = history w ++ new
      /\ Forall (fetch_event self url) new
      /\ (length (requests new) <= remaining)%nat
      /\ ((1 <= remaining)%nat ->
          (length (sleeps new) < length (requests new))%nat).
Proof.
  induction remaining as [|n IH]; intros attempt w Hsum.
  - exists []. simpl. rewrite app_nil_r. repeat split; auto; lia.
  - cbn [download_attempts].
    destruct (http E (history w) url) as [status body|].
    + destruct (status =? 200)%Z;
        [exists [EGet url (request_timeout (config self))]; simpl;
         repeat split; try lia; repeat constructor|].
      destruct (status =? 404)%Z;
        [exists [EGet url (request_timeout (config self))]; simpl;
         repeat split; try lia; repeat constructor|].
      destruct (IH (attempt + 1)%Z
                  (emit (EGet url (request_timeout (config self))) w))
        as (new & Hnew & Hev & Hreq & Hsleep); [lia|].
      exists (EGet url (request_timeout (config self)) :: new).
      rewrite Hnew. simpl. rewrite <- app_assoc. repeat split.
      * constructor; [left; reflexivity | exact Hev].
      * lia.
      * intros _. destruct n as [|n]; [|specialize (Hsleep ltac:(lia)); lia].
        assert (length (requests new) = O) as H0 by lia.
        destruct new as [|e new]; [simpl; lia|].
        apply Forall_cons in Hev as [[->| ->] _]; simpl in *; [lia|].
        simpl in Hnew. apply (f_equal (@length event)) in Hnew.
        rewrite !length_app in Hnew. simpl in Hnew. lia.
    + destruct (Z.ltb_spec attempt (max_retries (config self) - 1)).
      * destruct (IH (attempt + 1)%Z
                    (emit (ESleep (retry_delay (config self)))
                       (emit (EGet url (request_timeout (config self))) w)))
          as (new & Hnew & Hev & Hreq & Hsleep); [lia|].
        exists (EGet url (request_timeout (config self))
                :: ESleep (retry_delay (config self)) :: new).
        rewrite Hnew. simpl. rewrite <- !app_assoc. repeat split.
        -- constructor; [left; reflexivity|].
           constructor; [right; reflexivity | exact Hev].
        -- lia.
        -- intros _. specialize (Hsleep ltac:(lia)). lia.
      * exists [EGet url (request_timeout (config self))]. simpl.
        repeat split; try lia. repeat constructor.
Qed.

Lemma download_attempts_transport (remaining : nat) :
  (forall h, http E h url = RequestException) ->
  forall (attempt : Z) (w : world),
    (attempt + Z.of_nat remaining = max_retries (config self))%Z ->
    download_attempts self E url remaining attempt w
    = ({| files := files w;
          history := history w ++ transport_retries self url remaining |},
       None).
Proof.
  intros Hraise. induction remaining as [|n IH]; intros attempt w Hsum.
  - simpl. rewrite app_nil_r. destruct w; reflexivity.
  - cbn [download_attempts]. rewrite Hraise.
    destruct (Z.ltb_spec attempt (max_retries (config self) - 1)).
    + rewrite IH by lia. destruct n as [|n]; [lia|].
      cbn [transport_retries]. simpl. rewrite <- !app_assoc. reflexivity.
    + assert (n = O) as -> by lia. reflexivity.
Qed.

Lemma download_attempts_content (remaining : nat) :
  forall (attempt : Z) (w : world) (body : bytes),
    snd (download_attempts self E url remaining attempt w) = Some body ->
    exists h, http E h url = Response 200 body.
Proof.
  induction remaining as [|n IH]; intros attempt w body; simpl;
    [discriminate|].
  destruct (http E (history w) url) as [status b|] eqn:Hanswer.
  - destruct (Z.eqb_spec status 200) as [->|_].
    + simpl. intros [= ->]. eauto.
    + destruct (status =? 404)%Z; [discriminate|]. apply IH.
  - destruct (attempt <? max_retries (config self) - 1)%Z;
      [apply IH | discriminate].
Qed.
End FetcherBounds.

(** X1: whatever the server answers, [download_pdf] sends at most
    [max_retries] requests, all for the URL of the date; besides them it
    only sleeps [retry_delay], fewer times than it sends requests; and it
    leaves the files as they are. *)
Theorem download_pdf_bounded (self : scraper) (E : environment)
    (date_str : text) (w : world) :
  files (fst (download_pdf self E date_str w)) = files w
  /\ exists new,
      history (fst (download_pdf self E date_str w)) = history w ++ new
      /\ Forall (fetch_event self (pdf_url self date_str)) new
      /\ (length (requests new) <= Z.to_nat (max_retries (config self)))%nat
      /\ (length (sleeps new) <= length (requests new))%nat
      /\ (new <> [] -> (length (sleeps new) < length (requests new))%nat).
Proof.
  split; [apply download_pdf_files|]. unfold download_pdf.
  destruct (Z.to_nat (max_retries (config self))) as [|n] eqn:Hn.
  - exists []. simpl. rewrite app_nil_r. repeat split; auto. congruence.
  - destruct (download_attempts_shape self E (pdf_url self date_str) (S n)
                0%Z w) as (new & Hnew & Hev & Hreq & Hsleep); [lia|].
    exists new. specialize (Hsleep ltac:(lia)). repeat split; auto; lia.
Qed.

(** X2: when every request raises [RequestException], [download_pdf]
    sends [max_retries] requests with one sleep of [retry_delay] between
    two of them, none after the last, and returns [None]. *)
Theorem download_pdf_transport_errors (self : scraper) (E : environment)
    (date_str : text) (w : world) :
  (forall h, http E h (pdf_url self date_str) = RequestException) ->
  download_pdf self E date_str w
  = ({| files := files w;
        history := history w
                   ++ transport_retries self (pdf_url self date_str)
                        (Z.to_nat (max_retries (config self))) |}, None).
Proof.
  intros Hraise. unfold download_pdf.
  destruct (Z.le_gt_cases 0 (max_retries (config self))).
  - apply download_attempts_transport; [exact Hraise | lia].
  - replace (Z.to_nat (max_retries (config self))) with O by lia.
    simpl. rewrite app_nil_r. destruct w; reflexivity.
Qed.

Lemma download_pdf_transport_errors_witness :
  download_pdf default_scraper quiet_environment (cp "20240131") empty_world
  = ({| files := ∅;
        history :=
          [EGet (pdf_url default_scraper (cp "20240131")) 30; ESleep 2;
           EGet (pdf_url default_scraper (cp "20240131")) 30; ESleep 2;
           EGet (pdf_url default_scraper (cp "20240131")) 30] |}, None).
Proof.
  apply (download_pdf_transport_errors default_scraper quiet_environment
           (cp "20240131") empty_world).
  reflexivity.
Defined.

(** X3: a content returned by [download_pdf] is the body of an answer
    with status 200. *)
Theorem download_pdf_content (self : scraper) (E : environment)
    (date_str : text) (w : world) (body : bytes) :
  snd (download_pdf self E date_str w) = Some body ->
  exists h, http E h (pdf_url self date_str) = Response 200 body.
Proof. apply download_attempts_content. Qed.

Lemma download_pdf_content_witness :
  exists h,
    http serves_raw_page h (pdf_url default_scraper (cp "20240131"))
    = Response 200 [].
Proof.
  apply (download_pdf_content default_scraper serves_raw_page
           (cp "20240131") empty_world []).
  reflexivity.
Defined.

(** ** One date, again *)

Lemma process_date_skips (self : scraper) (E : environment)
    (date_str content : text) (w : world) :
  files w !! txt_path self date_str = Some content ->
  process_date self E date_str w
  = (emit (EExists (txt_path self date_str)) w, true).
Proof. intros H. unfold process_date. rewrite H. reflexivity. Qed.

Lemma write_file_other (E : environment) (path content other : text)
    (w : world) :
  other <> path ->
  files (fst (write_file E path content w)) !! other = files w !! other.
Proof.
  intros Hother. unfold write_file.
  destruct (disk_write E (history w) path content); simpl;
    rewrite ?lookup_insert_ne by congruence; reflexivity.
Qed.

Lemma write_file_done (E : environment) (path content : text) (w : world) :
  snd (write_file E path content w) = true ->
  files (fst (write_file E path content w)) !! path = Some content.
Proof.
  unfold write_file.
  destruct (disk_write E (history w) path content); simpl;
    try discriminate.
  intros _. apply lookup_insert_eq.
Qed.

(** What [process_date] does after the look for the file, when the file
    is not there. *)
Lemma process_date_absent (self : scraper) (E : environment)
    (date_str : text) (w : world) :
  files w !! txt_path self date_str = None ->
  (snd (process_date self E date_str w) = true ->
   is_Some (files (fst (process_date self E date_str w))
            !! txt_path self date_str))
  /\ (forall other, other <> txt_path self date_str ->
      files (fst (process_date self E date_str w)) !! other
      = files w !! other).
Proof.
  intros Habsent. unfold process_date. rewrite Habsent.
  pose proof (download_pdf_files self E date_str
                (emit (EExists (txt_path self date_str)) w)) as Hfiles.
  destruct (download_pdf self E date_str
              (emit (EExists (txt_path self date_str)) w)) as [w1 r].
  simpl in Hfiles.
  destruct r as [pdf_content|];
    [|split; [discriminate | intros; simpl; rewrite Hfiles; reflexivity]].
  destruct (extract_text_from_pdf E pdf_content) as [[|c t]|];
    try (split; [discriminate | intros; simpl; rewrite Hfiles; reflexivity]).
  unfold save_text_file. destruct (strip (c :: t));
    [split; [discriminate | intros; simpl; rewrite Hfiles; reflexivity]|].
  split.
  - intros Hdone. rewrite (write_file_done _ _ _ _ Hdone). eauto.
  - intros other Hother. rewrite write_file_other by exact Hother.
    rewrite Hfiles. reflexivity.
Qed.

(** X4: a date that [process_date] answered with [True] is skipped when
    it is processed again, at once or later in the same state: the second
    call only looks for the file, sends no request, writes nothing and
    answers [True]. *)
Theorem process_date_again (self : scraper) (E : environment)
    (date_str : text) (w : world) :
  snd (process_date self E date_str w) = true ->
  process_date self E date_str (fst (process_date self E date_str w))
  = (emit (EExists (txt_path self date_str))
       (fst (process_date self E date_str w)), true).
Proof.
  intros Hdone.
  destruct (files w !! txt_path self date_str) as [content|] eqn:Hfile.
  - rewrite (process_date_skips self E date_str content w Hfile). simpl.
    apply (process_date_skips self E date_str content). exact Hfile.
  - destruct (proj1 (process_date_absent self E date_str w Hfile) Hdone)
      as [content Hcontent].
    apply (process_date_skips self E date_str content). exact Hcontent.
Qed.

Lemma process_date_again_witness :
  process_date default_scraper serves_raw_page (cp "20240131")
    (fst (process_date default_scraper serves_raw_page (cp "20240131")
            empty_world))
  = (emit (EExists (txt_path default_scraper (cp "20240131")))
       (fst (process_date default_scraper serves_raw_page (cp "20240131")
               empty_world)), true).
Proof.
  apply (process_date_again default_scraper serves_raw_page (cp "20240131")
           empty_world).
  reflexivity.
Defined.



(** X6: when the write for a date stops after the file was opened,
    [process_date] answers [False] and leaves the part written under the
    name of the date; processed again, the date is taken for done:
    [True] without any request, the partial file staying as it is. *)
Theorem process_date_after_failed_write (self : scraper) (E : environment)
    (date_str : text) (w w1 : world) (pdf_content : bytes)
    (pages : list page) (written : nat) :
  files w !! txt_path self date_str = None ->
  download_pdf self E date_str (emit (EExists (txt_path self date_str)) w)
  = (w1, Some pdf_content) ->
  pdf_pages E pdf_content = Some pages ->
  strip (join [10] (text_parts pages)) <> [] ->
  disk_write E (history w1) (txt_path self date_str)
    (strip (join [10] (text_parts pages))) = WriteFails written ->
  snd (process_date self E date_str w) = false
  /\ files (fst (process_date self E date_str w)) !! txt_path self date_str
     = Some (take written (strip (join [10] (text_parts pages))))
  /\ process_date self E date_str (fst (process_date self E date_str w))
     = (emit (EExists (txt_path self date_str))
          (fst (process_date self E date_str w)), true).
Proof.
  intros Habsent Hfetch Hopen Htext Hwrite.
  assert (process_date self E date_str w
          = (put_file (txt_path self date_str)
               (take written (strip (join [10] (text_parts pages))))
               (emit (EOpenWrite (txt_path self date_str)) w1), false))
    as Hrun.
  { unfold process_date. rewrite Habsent, Hfetch.
    unfold extract_text_from_pdf. rewrite Hopen.
    destruct (text_parts pages) as [|p ps] eqn:Hparts.
    { exfalso. apply Htext. reflexivity. }
    destruct (strip_of_stripped_nonempty _ Htext) as (c & t & Hss & Hs).
    rewrite Hs. unfold save_text_file. rewrite <- Hs, Hss.
    unfold write_file. rewrite Hwrite. reflexivity. }
  rewrite Hrun. simpl. split; [reflexivity|].
  split; [apply lookup_insert_eq|].
  apply (process_date_skips self E date_str
           (take written (strip (join [10] (text_parts pages))))).
  apply lookup_insert_eq.
Qed.

Lemma process_date_after_failed_write_witness :
  snd (process_date default_scraper serves_then_write_fails (cp "20240131")
         empty_world) = false
  /\ files (fst (process_date default_scraper serves_then_write_fails
                   (cp "20240131") empty_world))
     !! txt_path default_scraper (cp "20240131") = Some (cp "Page")
  /\ process_date default_scraper serves_then_write_fails (cp "20240131")
       (fst (process_date default_scraper serves_then_write_fails
               (cp "20240131") empty_world))
     = (emit (EExists (txt_path default_scraper (cp "20240131")))
          (fst (process_date default_scraper serves_then_write_fails
                  (cp "20240131") empty_world)), true).
Proof.
  apply (process_date_after_failed_write default_scraper
           serves_then_write_fails (cp "20240131") empty_world
           {| files := ∅;
              history :=
                [EExists (txt_path default_scraper (cp "20240131"));
                 EGet (pdf_url default_scraper (cp "20240131")) 30] |}
           [] one_raw_page 4).
  - apply lookup_empty.
  - reflexivity.
  - reflexivity.
  - vm_compute. discriminate.
  - reflexivity.
Defined.

(** ** The batch, whatever the list *)







(** ** The input files *)

Lemma stripped_lines_entries (lines : list text) :
  Forall (fun l => l <> [] /\ strip l = l) (stripped_lines lines).
Proof.
  unfold stripped_lines. induction lines as [|l lines IH]; simpl;
    [constructor|].
  destruct (strip l) as [|c t] eqn:Hl; simpl; [exact IH|].
  constructor; [|exact IH].
  split; [discriminate|]. rewrite <- Hl. apply strip_idempotent.
Qed.

(** X9: the dates and the names read from their files are never empty
    and never start or end with white space, the newline of their line
    included; a names file that cannot be read gives no names, a dates
    file that cannot be read raises [ScraperError]. *)
Theorem input_files_entries (E : environment) :
  Forall (fun name => name <> [] /\ strip name = name)
    (_load_names_from_file E)
  /\ (names_file E = None -> _load_names_from_file E = [])
  /\ match load_dates_from_file E with
     | Return dates =>
         dates_file E <> None
         /\ Forall (fun d => d <> [] /\ strip d = d) dates
     | ScraperError => dates_file E = None
     end.
Proof.
  unfold _load_names_from_file, load_dates_from_file. repeat split.
  - destruct (names_file E); [apply stripped_lines_entries | constructor].
  - intros ->. reflexivity.
  - destruct (dates_file E); [|reflexivity].
    split; [discriminate | apply stripped_lines_entries].
Qed.

(** ** Extraction, again *)

Lemma text_parts_good_pages (pages pages' : list page) :
  List.filter gives_text pages = List.filter gives_text pages' ->
  text_parts pages = text_parts pages'.
Proof.
  intros Hsame. rewrite <- !text_parts_filter in Hsame.
  revert Hsame. generalize (text_parts pages') as b.
  induction (text_parts pages) as [|x a IH]; intros [|y b]; simpl;
    try discriminate; [reflexivity|].
  intros [= -> Hrest]. f_equal. apply IH, Hrest.
Qed.

(** X10: the result of [extract_text_from_pdf] depends on the pages that
    give a text only: two documents with the same such pages in the same
    order, whatever pages that raise or give nothing stand between them,
    give the same result. *)
Theorem extract_text_from_pdf_good_pages (E E' : environment)
    (pdf_content pdf_content' : bytes) (pages pages' : list page) :
  pdf_pages E pdf_content = Some pages ->
  pdf_pages E' pdf_content' = Some pages' ->
  List.filter gives_text pages = List.filter gives_text pages' ->
  extract_text_from_pdf E pdf_content = extract_text_from_pdf E' pdf_content'.
Proof.
  intros Hopen Hopen' Hsame. unfold extract_text_from_pdf.
  rewrite Hopen, Hopen', (text_parts_good_pages pages pages' Hsame).
  reflexivity.
Qed.

Lemma extract_text_from_pdf_good_pages_witness :
  extract_text_from_pdf
    (environment_of [] three_pages (fun _ _ _ => WriteOk)) []
  = extract_text_from_pdf
      (environment_of []
         [PageText (Some (cp "first")); PageText (Some (cp "third "))]
         (fun _ _ _ => WriteOk)) [].
Proof.
  apply (extract_text_from_pdf_good_pages _ _ [] [] three_pages
           [PageText (Some (cp "first")); PageText (Some (cp "third "))]);
    reflexivity.
Defined.

(** X11: a text returned by [extract_text_from_pdf] has no white space
    at its start or at its end: stripping it changes nothing. *)
Theorem extract_text_from_pdf_stripped (E : environment)
    (pdf_content : bytes) (text_content : text) :
  extract_text_from_pdf E pdf_content = Return text_content ->
  strip text_content = text_content.
Proof.
  unfold extract_text_from_pdf.
  destruct (pdf_pages E pdf_content) as [pages|]; [|discriminate].
  destruct (text_parts pages); [discriminate|].
  intros [= <-]. apply strip_idempotent.
Qed.

Lemma extract_text_from_pdf_stripped_witness :
  strip (cp "first" ++ [10] ++ cp "third") = cp "first" ++ [10] ++ cp "third".
Proof.
  apply (extract_text_from_pdf_stripped
           (environment_of [] three_pages (fun _ _ _ => WriteOk)) []).
  reflexivity.
Defined.

(** ** The text files of the output directory *)

Lemma is_prefix_app (a b : text) : is_prefix a (a ++ b) = true.
Proof.
  induction a as [|c a IH]; simpl; [reflexivity|].
  rewrite N.eqb_refl. exact IH.
Qed.

Lemma is_prefix_split (a : text) :
  forall s, is_prefix a s = true -> s = a ++ drop (length a) s.
Proof.
  induction a as [|c a IH]; intros [|d s]; simpl; try discriminate;
    try reflexivity.
  intros H. apply andb_true_iff in H as [Hc Ha].
  apply N.eqb_eq in Hc as ->. f_equal. apply IH, Ha.
Qed.

Lemma is_infix_one (c : N) (s : text) :
  is_infix [c] s = true <-> In c s.
Proof.
  induction s as [|d s IH]; simpl; [split; [discriminate | tauto]|].
  rewrite andb_true_r, orb_true_iff, IH, N.eqb_eq. split; intros [H|H]; auto.
Qed.

Section TextFiles.
Variable self : scraper.

Lemma txt_path_stem (date_str : text) :
  txt_path self date_str
  = (output_dir (config self) ++ cp "/" ++ cp "FOMCpresconf")
    ++ date_str ++ cp ".txt".
Proof. unfold txt_path. rewrite <- !app_assoc. reflexivity. Qed.

Lemma is_text_file_txt_path (date_str : text) :
  ~ In 47 date_str -> is_text_file self (txt_path self date_str) = true.
Proof.
  intros Hslash. unfold is_text_file. rewrite txt_path_stem.
  rewrite is_prefix_app, drop_app_length, rev_app_distr, is_prefix_app.
  simpl. apply negb_true_iff. apply not_true_is_false.
  intros H. apply (is_infix_one 47) in H. apply in_app_or in H as [H|H];
    [exact (Hslash H)|].
  simpl in H. repeat destruct H as [H|H]; try discriminate H. exact H.
Qed.

Lemma is_text_file_inv (path : text) :
  is_text_file self path = true ->
  exists date_str, path = txt_path self date_str /\ ~ In 47 date_str.
Proof.
  unfold is_text_file. intros H.
  apply andb_true_iff in H as [H Hslash].
  apply andb_true_iff in H as [Hstem Hext].
  apply is_prefix_split in Hstem. apply is_prefix_split in Hext.
  set (stem := output_dir (config self) ++ cp "/" ++ cp "FOMCpresconf") in *.
  set (rest := drop (length stem) path) in *.
  exists (rev (drop (length (rev (cp ".txt"))) (rev rest))).
  assert (rest = rev (drop (length (rev (cp ".txt"))) (rev rest)) ++ cp ".txt")
    as Hrest.
  { rewrite <- (rev_involutive rest) at 1. rewrite Hext at 1.
    rewrite rev_app_distr, rev_involutive. reflexivity. }
  split.
  - rewrite txt_path_stem. fold stem. rewrite <- Hrest. exact Hstem.
  - intros Hin. apply negb_true_iff in Hslash.
    assert (is_infix (cp "/") rest = true) as Hyes.
    { apply (is_infix_one 47). rewrite Hrest. apply in_or_app. auto. }
    congruence.
Qed.
End TextFiles.

(** X12: the paths that [clean_all_text_files] looks for,
    [FOMCpresconf*.txt] in the output directory, are the paths that
    [process_date] writes to for the dates without a path separator. *)
Theorem is_text_file_iff_txt_path (self : scraper) (path : text) :
  is_text_file self path = true
  <-> exists date_str, path = txt_path self date_str /\ ~ In 47 date_str.
Proof.
  split.
  - apply is_text_file_inv.
  - intros (date_str & -> & Hslash). apply is_text_file_txt_path, Hslash.
Qed.

(** ** The cleaning pass *)


Section CleaningPass.
Variable U : unicode_tables.
Variable self : scraper.
Variable E : environment.





End CleaningPass.




(** The same pass, file by file. *)
Example clean_all_text_files_two_files :
  files (fst (clean_all_text_files ascii_only default_scraper
                quiet_environment two_saved_files))
  = {[ txt_path default_scraper (cp "20240131") := cp "Hello world";
       cp "fed_press_conferences/notes.md" := cp "keep  me" ]}
  /\ snd (clean_all_text_files ascii_only default_scraper quiet_environment
            two_saved_files) = 1%Z.
Proof. split; vm_compute; reflexivity. Qed.

(** ** The whole run *)


(** ** What the cleaner keeps *)

Lemma sub_from_sublist (p : pattern) (s : text) :
  forall skip, sublist (sub_from p [] skip s) s.
Proof.
  induction s as [|c s IH]; intros skip.
  - simpl. destruct skip, (match_items p []); constructor.
  - cbn [sub_from]. destruct skip as [|skip];
      [|apply sublist_cons, IH].
    destruct (match_items p (c :: s)) as [[|n]|]; cbn [app].
    + apply sublist_skip, IH.
    + apply sublist_cons, IH.
    + apply sublist_skip, IH.
Qed.

Lemma removal_steps_sublist_aux (U : unicode_tables) (text_content : text) :
  sublist (removal_steps U text_content) text_content.
Proof.
  unfold removal_steps, remove_titles, remove_titles_with_date,
    remove_headers, remove_page_numbers, sub.
  etransitivity; [apply sub_from_sublist|].
  etransitivity; [apply sub_from_sublist|].
  etransitivity; [apply sub_from_sublist|].
  apply sub_from_sublist.
Qed.

Lemma squeeze_length (s : text) :
  forall in_run, (length (squeeze in_run s) <= length s)%nat.
Proof.
  induction s as [|c s IH]; intros in_run; simpl; [lia|].
  destruct (is_space c); [destruct in_run|]; simpl;
    try (specialize (IH true); lia); specialize (IH false); lia.
Qed.

(** X16: each of the four removals of the cleaner, and the four in
    their order, only delete: what is left is the text with some
    characters taken out, nothing added, changed or moved. *)
Theorem removal_steps_sublist (U : unicode_tables) (text_content : text) :
  sublist (remove_page_numbers U text_content) text_content
  /\ sublist (remove_headers U text_content) text_content
  /\ sublist (remove_titles_with_date U text_content) text_content
  /\ sublist (remove_titles text_content) text_content
  /\ sublist (removal_steps U text_content) text_content.
Proof.
  repeat split; try apply sub_from_sublist.
  apply removal_steps_sublist_aux.
Qed.

Lemma squeeze_ink (s : text) :
  forall in_run, ink (squeeze in_run s) = ink s.
Proof.
  unfold ink. induction s as [|c s IH]; intros in_run; simpl; [reflexivity|].
  destruct (is_space c) eqn:Hc; simpl.
  - destruct in_run; simpl; rewrite ?IH; reflexivity.
  - rewrite Hc. simpl. rewrite IH. reflexivity.
Qed.

Lemma squeeze_single_spaced (s : text) :
  single_spaced false (squeeze false s) = true
  /\ forall after_space, single_spaced after_space (squeeze true s) = true.
Proof.
  induction s as [|c s [IH0 IH1]]; [split; reflexivity|].
  cbn [squeeze]. destruct (is_space c) eqn:Hc.
  - split; [|exact IH1].
    cbn [single_spaced]. change (is_space 32) with true. cbn iota.
    rewrite IH1. reflexivity.
  - cbn [single_spaced]. rewrite Hc. auto.
Qed.

Lemma ink_sublist (a b : text) : sublist a b -> sublist (ink a) (ink b).
Proof.
  unfold ink. induction 1 as [|c a b _ IH|c a b _ IH]; simpl.
  - constructor.
  - destruct (negb (is_space c)); [apply sublist_skip|]; exact IH.
  - destruct (negb (is_space c)); [apply sublist_cons|]; exact IH.
Qed.

(** X17: after the collapse of white space, the only white space left
    is the space, never two in a row, so no newline and no tab; and the
    characters that are not white space are those of the input, in
    order. *)
Theorem collapse_whitespace_single_spaced (s : text) :
  single_spaced false (collapse_whitespace s) = true
  /\ ink (collapse_whitespace s) = ink s.
Proof.
  unfold collapse_whitespace, sub. rewrite (proj1 (collapse_squeeze s)).
  split; [apply squeeze_single_spaced | apply squeeze_ink].
Qed.

(** X18: the five steps together never add to the text: the result is
    single-spaced, and its characters other than white space are
    characters of the input, in the order of the input. *)
Theorem structural_steps_keep (U : unicode_tables) (text_content : text) :
  single_spaced false (structural_steps U text_content) = true
  /\ sublist (ink (structural_steps U text_content)) (ink text_content)
  /\ (length (structural_steps U text_content) <= length text_content)%nat.
Proof.
  change (structural_steps U text_content)
    with (collapse_whitespace (removal_steps U text_content)).
  unfold collapse_whitespace, sub.
  rewrite (proj1 (collapse_squeeze (removal_steps U text_content))).
  pose proof (removal_steps_sublist_aux U text_content) as Hsub.
  split; [apply squeeze_single_spaced|]. split.
  - rewrite squeeze_ink. apply ink_sublist, Hsub.
  - transitivity (length (removal_steps U text_content));
      [apply squeeze_length | apply sublist_length, Hsub].
Qed.

(** ** What tagging keeps *)

Section TaggingFacts.
Variable U : unicode_tables.
Variable name : text.




End TaggingFacts.




